(** * Chocolate quality control: a shallow embedding of
      [QualitySystemChocolate.py] and the properties of its core.

    The Python program keeps chocolates and their defect lists as mutable
    objects that are passed around by reference.  The embedding keeps them in
    an explicit store, so that aliasing (who holds a reference to which list)
    is part of the model, and writes every method as a computation in a small
    state-and-exception monad. *)

From Stdlib Require Import ZArith String Ascii List Lia Reals Lra.
From stdpp Require Import base option list gmap strings pretty.

Local Open Scope string_scope.
Local Open Scope list_scope.

(** ** Vocabulary *)

Module DefectType.
Inductive t : Set :=
  | BUBBLES
  | BREAKAGE
  | INCORRECT_SHAPE
  | STAINS
  | MISSING_PIECE
  | DAMAGED_PACKAGING.

#[global] Instance eq_dec : EqDecision t.
Proof. solve_decision. Defined.

Definition value (d : t) : string :=
  match d with
  | BUBBLES => "air_bubbles"
  | BREAKAGE => "breakage"
  | INCORRECT_SHAPE => "incorrect_shape"
  | STAINS => "stains"
  | MISSING_PIECE => "missing_piece"
  | DAMAGED_PACKAGING => "damaged_packaging"
  end.
End DefectType.

Module QualityStatus.
Inductive t : Set :=
  | APPROVED
  | REJECTED
  | PENDING.

#[global] Instance eq_dec : EqDecision t.
Proof. solve_decision. Defined.

Definition value (s : t) : string :=
  match s with
  | APPROVED => "approved"
  | REJECTED => "rejected"
  | PENDING => "pending"
  end.
End QualityStatus.

(** ** Objects and the store *)

(** A [datetime] object, with the fields [strftime] reads. *)
Record datetime : Set := {
  year : nat;
  month : nat;
  day : nat;
  hour : nat;
  minute : nat;
  second : nat
}.

(** References to objects in the store. *)
Definition loc : Set := nat.

(** The class of a chocolate object, with the attribute its subclass adds. *)
Inductive Class : Set :=
  | cls_Chocolate
  | cls_MoldedChocolate (_mold_type : string)
  | cls_PackagedChocolate (_packaging_type : string).

(** [chocolate.__class__.__name__] *)
Definition __name__ (c : Class) : string :=
  match c with
  | cls_Chocolate => "Chocolate"
  | cls_MoldedChocolate _ => "MoldedChocolate"
  | cls_PackagedChocolate _ => "PackagedChocolate"
  end.

(** The attributes of a [Chocolate] instance.  [_defects] is a reference to a
    list object: the list is shared with whoever else holds that reference. *)
Record Chocolate_object : Set := {
  __class__ : Class;
  _batch_id : string;
  _production_date : datetime;
  _defects : loc;
  _quality_status : QualityStatus.t
}.

(** What a computation can read and change: the list objects, the chocolate
    objects, and the two sources of values from outside the program, the
    [random] module and the system clock.  Each source is the sequence of the
    values it will deliver, with the number of values delivered so far. *)
Record World : Type := {
  lists : gmap loc (list DefectType.t);
  chocolates : gmap loc Chocolate_object;
  random_source : nat → nat;
  random_drawn : nat;
  clock_source : nat → datetime;
  clock_read : nat
}.

Definition with_lists (h : gmap loc (list DefectType.t)) (w : World) : World :=
  {| lists := h; chocolates := chocolates w;
     random_source := random_source w; random_drawn := random_drawn w;
     clock_source := clock_source w; clock_read := clock_read w |}.

Definition with_chocolates (h : gmap loc Chocolate_object) (w : World) : World :=
  {| lists := lists w; chocolates := h;
     random_source := random_source w; random_drawn := random_drawn w;
     clock_source := clock_source w; clock_read := clock_read w |}.

(** ** Computations *)

(** [NoSuchObject] has no counterpart in Python, where a reference always
    points to an object: it is the outcome of following a reference that the
    store does not hold. *)
Inductive Exception : Set :=
  | ValueError (msg : string)
  | IndexError
  | ZeroDivisionError
  | NoSuchObject.

Inductive Outcome (A : Type) : Type :=
  | Return (a : A)
  | Raise (e : Exception).
Arguments Return {A} a.
Arguments Raise {A} e.

(** A computation over a state [S]: an exception keeps the state reached when
    it was raised. *)
Definition Eff (S A : Type) : Type := S → Outcome A * S.

#[global] Instance Eff_ret {S} : MRet (Eff S) := λ A a s, (Return a, s).

#[global] Instance Eff_bind {S} : MBind (Eff S) := λ A B f m s,
  match m s with
  | (Return a, s') => f a s'
  | (Raise e, s') => (Raise e, s')
  end.

Definition raise {S A} (e : Exception) : Eff S A := λ s, (Raise e, s).
Definition get {S} : Eff S S := λ s, (Return s, s).
Definition put {S} (s : S) : Eff S unit := λ _, (Return tt, s).

(** [for x in xs: body(x)] over the elements [xs]. *)
Fixpoint for_each {S A} (xs : list A) (body : A → Eff S unit) : Eff S unit :=
  match xs with
  | [] => mret tt
  | x :: xs' => body x;; for_each xs' body
  end.

(** *** List objects *)

Definition new_list (xs : list DefectType.t) : Eff World loc := λ w,
  let l := fresh (dom (lists w)) in
  (Return l, with_lists (<[l := xs]> (lists w)) w).

Definition read_list (l : loc) : Eff World (list DefectType.t) := λ w,
  match lists w !! l with
  | Some xs => (Return xs, w)
  | None => (Raise NoSuchObject, w)
  end.

Definition write_list (l : loc) (xs : list DefectType.t) : Eff World unit := λ w,
  match lists w !! l with
  | Some _ => (Return tt, with_lists (<[l := xs]> (lists w)) w)
  | None => (Raise NoSuchObject, w)
  end.

(** [l.append(x)] *)
Definition list_append (l : loc) (x : DefectType.t) : Eff World unit :=
  xs ← read_list l; write_list l (xs ++ [x]).

(** [l.extend(ys)] *)
Definition list_extend (l : loc) (ys : list DefectType.t) : Eff World unit :=
  xs ← read_list l; write_list l (xs ++ ys).

(** *** Chocolate objects *)

Definition new_chocolate (c : Chocolate_object) : Eff World loc := λ w,
  let l := fresh (dom (chocolates w)) in
  (Return l, with_chocolates (<[l := c]> (chocolates w)) w).

Definition read_chocolate (self : loc) : Eff World Chocolate_object := λ w,
  match chocolates w !! self with
  | Some c => (Return c, w)
  | None => (Raise NoSuchObject, w)
  end.

Definition set_status (s : QualityStatus.t) (c : Chocolate_object) : Chocolate_object :=
  {| __class__ := __class__ c; _batch_id := _batch_id c;
     _production_date := _production_date c;
     _defects := _defects c; _quality_status := s |}.

(** [self._quality_status = s] *)
Definition set_quality_status (self : loc) (s : QualityStatus.t) : Eff World unit := λ w,
  match chocolates w !! self with
  | Some c =>
      (Return tt, with_chocolates (<[self := set_status s c]> (chocolates w)) w)
  | None => (Raise NoSuchObject, w)
  end.

(** *** The outside world *)

(** The next value of the [random] module's generator. *)
Definition next_random : Eff World nat := λ w,
  (Return (random_source w (random_drawn w)),
   {| lists := lists w; chocolates := chocolates w;
      random_source := random_source w; random_drawn := S (random_drawn w);
      clock_source := clock_source w; clock_read := clock_read w |}).

(** [random.randint(a, b)]: an integer of [a..b], both ends included. *)
Definition randint (a b : nat) : Eff World nat :=
  r ← next_random; mret (a + r mod (b - a + 1)).

(** [random.choices(population, k=k)]: [k] elements of the population, each
    drawn on its own, so that an element can come more than once.  Indexing
    an empty population raises [IndexError]. *)
Fixpoint choices {A} (population : list A) (k : nat) : Eff World (list A) :=
  match k with
  | 0 => mret []
  | S k' =>
      r ← next_random;
      match population !! (r mod length population) with
      | Some x => rest ← choices population k'; mret (x :: rest)
      | None => raise IndexError
      end
  end.

(** [datetime.now()] *)
Definition datetime_now : Eff World datetime := λ w,
  (Return (clock_source w (clock_read w)),
   {| lists := lists w; chocolates := chocolates w;
      random_source := random_source w; random_drawn := random_drawn w;
      clock_source := clock_source w; clock_read := S (clock_read w) |}).

(** ** The product classes *)

Module Chocolate.

(** [Chocolate(batch_id, production_date)].  The subclasses call it through
    [super().__init__], for an object of their own class. *)
Definition __init__ (cls : Class) (batch_id : string) (production_date : datetime)
  : Eff World loc :=
  l ← new_list [];
  new_chocolate {| __class__ := cls; _batch_id := batch_id;
                   _production_date := production_date;
                   _defects := l; _quality_status := QualityStatus.PENDING |}.

Definition batch_id (self : loc) : Eff World string :=
  c ← read_chocolate self; mret (_batch_id c).

(** The [defects] property: [self._defects.copy()], a new list object. *)
Definition defects (self : loc) : Eff World loc :=
  c ← read_chocolate self;
  xs ← read_list (_defects c);
  new_list xs.

Definition add_defect (self : loc) (defect : DefectType.t) : Eff World unit :=
  c ← read_chocolate self;
  xs ← read_list (_defects c);
  if bool_decide (defect ∉ xs) then list_append (_defects c) defect else mret tt.

Definition evaluate_quality (self : loc) : Eff World QualityStatus.t :=
  c ← read_chocolate self;
  xs ← read_list (_defects c);
  (if bool_decide (xs = [])
   then set_quality_status self QualityStatus.APPROVED
   else set_quality_status self QualityStatus.REJECTED);;
  c' ← read_chocolate self;
  mret (_quality_status c').

Definition __str__ (self : loc) : Eff World string :=
  c ← read_chocolate self;
  mret ("Chocolate Batch " +:+ _batch_id c +:+ " - Status: "
        +:+ QualityStatus.value (_quality_status c)).

End Chocolate.

Module MoldedChocolate.

Definition __init__ (batch_id : string) (production_date : datetime) (mold_type : string)
  : Eff World loc :=
  Chocolate.__init__ (cls_MoldedChocolate mold_type) batch_id production_date.

Definition evaluate_quality (self : loc) : Eff World QualityStatus.t :=
  c ← read_chocolate self;
  xs ← read_list (_defects c);
  (if bool_decide (DefectType.BUBBLES ∈ xs)
      || bool_decide (DefectType.BREAKAGE ∈ xs)
      || bool_decide (DefectType.INCORRECT_SHAPE ∈ xs)
   then set_quality_status self QualityStatus.REJECTED
   else set_quality_status self QualityStatus.APPROVED);;
  c' ← read_chocolate self;
  mret (_quality_status c').

End MoldedChocolate.

Module PackagedChocolate.

Definition __init__ (batch_id : string) (production_date : datetime) (packaging_type : string)
  : Eff World loc :=
  Chocolate.__init__ (cls_PackagedChocolate packaging_type) batch_id production_date.

Definition evaluate_quality (self : loc) : Eff World QualityStatus.t :=
  c ← read_chocolate self;
  xs ← read_list (_defects c);
  (if bool_decide (DefectType.BREAKAGE ∈ xs)
      || bool_decide (DefectType.DAMAGED_PACKAGING ∈ xs)
      || bool_decide (DefectType.MISSING_PIECE ∈ xs)
   then set_quality_status self QualityStatus.REJECTED
   else set_quality_status self QualityStatus.APPROVED);;
  c' ← read_chocolate self;
  mret (_quality_status c').

End PackagedChocolate.

(** [chocolate.evaluate_quality()]: the method of the object's own class. *)
Definition evaluate_quality (chocolate : loc) : Eff World QualityStatus.t :=
  c ← read_chocolate chocolate;
  match __class__ c with
  | cls_Chocolate => Chocolate.evaluate_quality chocolate
  | cls_MoldedChocolate _ => MoldedChocolate.evaluate_quality chocolate
  | cls_PackagedChocolate _ => PackagedChocolate.evaluate_quality chocolate
  end.

(** ** Sensors *)

(** The abstract class [QualitySensor]: a sensor is its [detect_defects]
    method, which gets a reference to the chocolate and returns a reference
    to a list of defects.  Nothing in its type keeps a sensor from changing
    the store. *)
Record QualitySensor : Type := {
  detect_defects : loc → Eff World loc
}.

Module VisualSensor.

Definition _analyze_molding : Eff World (list DefectType.t) :=
  let possible_defects :=
    [DefectType.BUBBLES; DefectType.BREAKAGE;
     DefectType.INCORRECT_SHAPE; DefectType.STAINS] in
  k ← randint 0 2;
  choices possible_defects k.

Definition _analyze_packaging : Eff World (list DefectType.t) :=
  let possible_defects :=
    [DefectType.BREAKAGE; DefectType.DAMAGED_PACKAGING;
     DefectType.MISSING_PIECE] in
  k ← randint 0 1;
  choices possible_defects k.

Definition detect_defects (chocolate : loc) : Eff World loc :=
  detected_defects ← new_list [];
  c ← read_chocolate chocolate;
  match __class__ c with
  | cls_MoldedChocolate _ =>
      found ← _analyze_molding; list_extend detected_defects found
  | cls_PackagedChocolate _ =>
      found ← _analyze_packaging; list_extend detected_defects found
  | cls_Chocolate => mret tt
  end;;
  mret detected_defects.

(** [VisualSensor()] *)
Definition __init__ : QualitySensor := Build_QualitySensor detect_defects.

End VisualSensor.

(** ** Numbers and their text *)

(** [str(n)] of a non-negative [int]. *)
Definition str (n : nat) : string := pretty n.

(** [n / d] rounded to the nearest integer, a tie to the even one
    ([0 ≤ n], [0 < d]). *)
Definition round_half_even (n d : Z) : Z :=
  let q := (n / d)%Z in
  let r := (n mod d)%Z in
  if (2 * r <? d)%Z then q
  else if (d <? 2 * r)%Z then (q + 1)%Z
  else if Z.even q then q else (q + 1)%Z.

(** A Python [float] that is neither negative, infinite nor a NaN: the
    binary64 number [mantissa * 2 ^ exponent]. *)
Record float : Set := {
  mantissa : Z;
  exponent : Z
}.

(** The binary64 number nearest to [n / d], a tie to the even mantissa
    ([0 ≤ n], [0 < d], [n / d] in the range of binary64).  A normal number
    has 53 bits of mantissa; below [2 ^ -1022] the exponent stays at
    [-1074]. *)
Definition nearest_float (n d : Z) : float :=
  if (n =? 0)%Z then {| mantissa := 0; exponent := 0 |}
  else
    let l := (Z.log2 n - Z.log2 d)%Z in
    let floor_log2 :=
      if (if (0 <=? l)%Z then (d * 2 ^ l <=? n)%Z else (d <=? n * 2 ^ (- l))%Z)
      then l else (l - 1)%Z in
    let e := Z.max (floor_log2 - 52) (-1074) in
    {| mantissa :=
         if (0 <=? e)%Z then round_half_even n (d * 2 ^ e)
         else round_half_even (n * 2 ^ (- e)) d;
       exponent := e |}.


(** [float(n)] *)
Definition float_of_int (n : Z) : float := nearest_float n 1.

(** [a / b] on [int]s. *)
Definition int_truediv {S} (a b : Z) : Eff S float :=
  if (b =? 0)%Z then raise ZeroDivisionError else mret (nearest_float a b).

(** [x * y] on [float]s. *)
Definition float_mul (x y : float) : float :=
  let m := (mantissa x * mantissa y)%Z in
  let e := (exponent x + exponent y)%Z in
  if (0 <=? e)%Z then nearest_float (m * 2 ^ e) 1 else nearest_float m (2 ^ (- e)).

(** The hundredths that [.2f] prints for [x]: [100 * x] rounded to the
    nearest integer, a tie to the even one. *)
Definition hundredths (x : float) : Z :=
  let m := (100 * mantissa x)%Z in
  if (0 <=? exponent x)%Z then (m * 2 ^ exponent x)%Z
  else round_half_even m (2 ^ (- exponent x)).

(** [f"{x:.2f}"] *)
Definition format_2f (x : float) : string :=
  let h := Z.to_nat (hundredths x) in
  let cents := h mod 100 in
  str (h / 100) +:+ "." +:+ (if (cents <? 10)%nat then "0" else "") +:+ str cents.

(** [s * n] on a [str]. *)
Fixpoint string_repeat (s : string) (n : nat) : string :=
  match n with
  | 0 => ""
  | S n' => s +:+ string_repeat s n'
  end.

(** [sep.join(xs)] *)
Fixpoint join (sep : string) (xs : list string) : string :=
  match xs with
  | [] => ""
  | [x] => x
  | x :: xs' => x +:+ sep +:+ join sep xs'
  end.

(** A decimal number padded with zeros on the left to a width. *)
Definition zero_pad (width n : nat) : string :=
  let digits := str n in
  string_repeat "0" (width - String.length digits) +:+ digits.

(** [d.strftime('%Y-%m-%d %H:%M:%S')], with [%Y] as Python documents it, a
    year of four digits. *)
Definition strftime (d : datetime) : string :=
  zero_pad 4 (year d) +:+ "-" +:+ zero_pad 2 (month d) +:+ "-" +:+ zero_pad 2 (day d)
  +:+ " " +:+ zero_pad 2 (hour d) +:+ ":" +:+ zero_pad 2 (minute d)
  +:+ ":" +:+ zero_pad 2 (second d).

(** The line feed of ["\n"]. *)
Definition LF : string := String (ascii_of_nat 10) EmptyString.

(** ** Dictionaries that count *)

(** A [dict] from [str] to [int].  Python iterates over a dictionary in the
    order in which its keys were first inserted, so the keys are kept in that
    order. *)
Definition dict : Set := list (string * nat).

(** [d.get(k, default)] *)
Fixpoint dict_get (d : dict) (k : string) (default : nat) : nat :=
  match d with
  | [] => default
  | (k', v) :: d' => if bool_decide (k' = k) then v else dict_get d' k default
  end.

(** [d[k] = v]: a key that is there keeps its place. *)
Fixpoint dict_set (d : dict) (k : string) (v : nat) : dict :=
  match d with
  | [] => [(k, v)]
  | (k', v') :: d' =>
      if bool_decide (k' = k) then (k', v) :: d' else (k', v') :: dict_set d' k v
  end.

(** ** The control system *)

(** One entry of the ledger: the dictionary [_register_result] builds. *)
Module record.
Record t : Set := {
  batch_id : string;
  date : datetime;
  process : string;
  defects : list string;
  result : string;
  chocolate_type : string
}.
End record.

(** The attributes of a [QualityControlSystem] instance. *)
Record QualityControlSystem_object : Type := {
  _sensors : gmap string QualitySensor;
  _results : list record.t
}.

Module QualityControlSystem.

(** The methods of the control system work on the system itself and on the
    world around it.  A sensor works on the world only. *)
Definition State : Type := QualityControlSystem_object * World.

Definition in_world {A} (m : Eff World A) : Eff State A := λ s,
  let (a, w') := m s.2 in (a, (s.1, w')).

Definition self : Eff State QualityControlSystem_object := λ s, (Return s.1, s).

(** [QualityControlSystem()] *)
Definition __init__ : QualityControlSystem_object :=
  {| _sensors := ∅; _results := [] |}.

Definition register_sensor (process : string) (sensor : QualitySensor) : Eff State unit :=
  λ s, (Return tt,
        ({| _sensors := <[process := sensor]> (_sensors s.1);
            _results := _results s.1 |}, s.2)).

(** [self._results.append(record)] *)
Definition _results_append (r : record.t) : Eff State unit :=
  λ s, (Return tt,
        ({| _sensors := _sensors s.1; _results := _results s.1 ++ [r] |}, s.2)).

Definition _register_result (chocolate defects : loc) (result : QualityStatus.t)
    (process : string) : Eff State unit :=
  batch_id ← in_world (Chocolate.batch_id chocolate);
  date ← in_world datetime_now;
  ds ← in_world (read_list defects);
  c ← in_world (read_chocolate chocolate);
  _results_append
    {| record.batch_id := batch_id;
       record.date := date;
       record.process := process;
       record.defects := DefectType.value <$> ds;
       record.result := QualityStatus.value result;
       record.chocolate_type := __name__ (__class__ c) |}.

(** The loop [for defect in defects: chocolate.add_defect(defect)] runs over
    the elements the list holds when the loop starts: the body appends to
    the chocolate's own list only, and only a defect that list does not
    hold, so the list the loop runs over does not change under it even when
    the two are one list. *)
Definition inspect_chocolate (chocolate : loc) (process : string)
  : Eff State QualityStatus.t :=
  this ← self;
  match _sensors this !! process with
  | None => raise (ValueError ("No sensor registered for process: " +:+ process))
  | Some sensor =>
      defects ← in_world (detect_defects sensor chocolate);
      ds ← in_world (read_list defects);
      in_world (for_each ds (Chocolate.add_defect chocolate));;
      result ← in_world (evaluate_quality chocolate);
      _register_result chocolate defects result process;;
      mret result
  end.

(** The number of times each defect occurs in the ledger. *)
Definition count_defects (results : list record.t) : dict :=
  foldl (λ defect_counter result,
           foldl (λ defect_counter defect,
                    dict_set defect_counter defect (dict_get defect_counter defect 0 + 1))
                 defect_counter (record.defects result))
        [] results.

(** [approval_rate] is [0], an [int], when there is no inspection; [.2f]
    prints an [int] as the [float] of the same value. *)
Definition generate_report : Eff State string :=
  this ← self;
  if bool_decide (_results this = [])
  then mret "No inspection data available to generate report."
  else
    let total_inspections := length (_results this) in
    let approved :=
      sum_list ((λ _, 1) <$>
                filter (λ r, record.result r = QualityStatus.value QualityStatus.APPROVED)
                       (_results this)) in
    approval_rate ←
      (if (0 <? total_inspections)%nat
       then q ← int_truediv (Z.of_nat approved) (Z.of_nat total_inspections);
            mret (float_mul q (float_of_int 100))
       else mret (float_of_int 0));
    let report :=
      LF +:+
      "        QUALITY CONTROL REPORT" +:+ LF +:+
      "        ======================" +:+ LF +:+
      "        Total inspections: " +:+ str total_inspections +:+ LF +:+
      "        Approved products: " +:+ str approved +:+ LF +:+
      "        Rejected products: " +:+ str (total_inspections - approved) +:+ LF +:+
      "        Approval rate: " +:+ format_2f approval_rate +:+ "%" +:+ LF +:+
      "        " +:+ LF +:+
      "        Defect details:" +:+ LF +:+
      "        " in
    let defect_counter := count_defects (_results this) in
    mret (if bool_decide (defect_counter ≠ [])
          then foldl (λ report '(defect, count),
                        report +:+ "  - " +:+ defect +:+ ": " +:+ str count
                        +:+ " occurrences" +:+ LF)
                     report defect_counter
          else report +:+ "  No defects detected" +:+ LF).

(** The body of the loop of [show_inspections], from entry number [i] on. *)
Fixpoint show_entries (i : nat) (results : list record.t) (report : string) : string :=
  match results with
  | [] => report
  | result :: rest =>
      let report := report +:+ str i +:+ ". Batch: " +:+ record.batch_id result +:+ " | " in
      let report := report +:+ "Process: " +:+ record.process result +:+ " | " in
      let report := report +:+ "Result: " +:+ record.result result +:+ LF in
      let report :=
        if bool_decide (record.defects result ≠ [])
        then report +:+ "   Defects: " +:+ join ", " (record.defects result) +:+ LF
        else report in
      let report := report +:+ "   Date: " +:+ strftime (record.date result) +:+ LF in
      let report := report +:+ string_repeat "-" 50 +:+ LF in
      show_entries (S i) rest report
  end.

Definition show_inspections : Eff State string :=
  this ← self;
  if bool_decide (_results this = [])
  then mret "No inspections registered."
  else
    let report := "INSPECTION HISTORY" +:+ LF in
    let report := report +:+ string_repeat "=" 50 +:+ LF in
    mret (show_entries 1 (_results this) report).

End QualityControlSystem.

(** ** Worlds and systems to run the program on *)

Definition noon : datetime :=
  {| year := 2024; month := 3; day := 7; hour := 12; minute := 0; second := 0 |}.

(** A world that holds no object yet. *)
Definition empty_world : World :=
  {| lists := ∅; chocolates := ∅;
     random_source := λ n, n; random_drawn := 0;
     clock_source := λ _, noon; clock_read := 0 |}.

(** The world after [c = cls(batch_id, noon, ...)] and one
    [c.add_defect(d)] for each [d] of [ds], in an empty world.  The new
    chocolate is at reference [0], and so is its list of defects. *)
Definition world_with (cls : Class) (batch_id : string) (ds : list DefectType.t) : World :=
  ((c ← Chocolate.__init__ cls batch_id noon;
    for_each ds (Chocolate.add_defect c)) empty_world).2.

(** The chocolate object of [world_with], as its constructor leaves it. *)
Definition fresh_chocolate (cls : Class) (batch_id : string) : Chocolate_object :=
  {| __class__ := cls; _batch_id := batch_id; _production_date := noon;
     _defects := 0; _quality_status := QualityStatus.PENDING |}.

(** The defects a chocolate carries after [add_defect] of each defect of
    [ds] in turn, when it carried [D] before. *)
Definition added (D ds : list DefectType.t) : list DefectType.t :=
  foldl (λ D d, if bool_decide (d ∈ D) then D else D ++ [d]) D ds.

(** A sensor that finds the same defects in every chocolate. *)
Definition constant_sensor (ds : list DefectType.t) : QualitySensor :=
  {| detect_defects := λ _, new_list ds |}.

(** ** Sequences of calls *)

(** What the owner of a control system can do with it: call one of its four
    public methods, or work on the world without the system. *)
Inductive call : Type :=
  | call_register_sensor (process : string) (sensor : QualitySensor)
  | call_inspect_chocolate (chocolate : loc) (process : string)
  | call_generate_report
  | call_show_inspections
  | call_elsewhere (m : Eff World unit).

Definition returned {A} (o : Outcome A) : bool :=
  match o with
  | Return _ => true
  | Raise _ => false
  end.

(** One call, with the state it leaves and whether it was an inspection that
    returned.  An exception is caught by the caller, who goes on. *)
Definition run_call (c : call) (s : QualityControlSystem.State)
  : bool * QualityControlSystem.State :=
  match c with
  | call_register_sensor process sensor =>
      (false, (QualityControlSystem.register_sensor process sensor s).2)
  | call_inspect_chocolate chocolate process =>
      let (o, s') := QualityControlSystem.inspect_chocolate chocolate process s in
      (returned o, s')
  | call_generate_report => (false, (QualityControlSystem.generate_report s).2)
  | call_show_inspections => (false, (QualityControlSystem.show_inspections s).2)
  | call_elsewhere m => (false, (QualityControlSystem.in_world m s).2)
  end.

(** A sequence of calls, with the number of inspections that returned and
    the state at the end. *)
Fixpoint run_calls (cs : list call) (s : QualityControlSystem.State)
  : nat * QualityControlSystem.State :=
  match cs with
  | [] => (0, s)
  | c :: cs' =>
      let (inspected, s1) := run_call c s in
      let (n, s2) := run_calls cs' s1 in
      ((if inspected then 1 else 0) + n, s2)
  end.

(** ** Control systems to run the program on *)

(** A control system whose sensor for ["molding"] finds bubbles twice in
    every chocolate. *)
Definition bubbles_system : QualityControlSystem_object :=
  (QualityControlSystem.register_sensor "molding"
     (constant_sensor [DefectType.BUBBLES; DefectType.BUBBLES])
     (QualityControlSystem.__init__, empty_world)).2.1.

(** The control system of [main]: the visual sensor for both processes. *)
Definition visual_system : QualityControlSystem_object :=
  ((QualityControlSystem.register_sensor "molding" VisualSensor.__init__;;
    QualityControlSystem.register_sensor "packaging" VisualSensor.__init__)
     (QualityControlSystem.__init__, empty_world)).2.1.

(** The state after three inspections, of which the first finds bubbles and
    the other two find nothing. *)
Definition three_inspections : QualityControlSystem.State :=
  (run_calls
     [call_register_sensor "molding" (constant_sensor [DefectType.BUBBLES]);
      call_register_sensor "packaging" (constant_sensor []);
      call_elsewhere (MoldedChocolate.__init__ "M-1" noon "heart";; mret tt);
      call_inspect_chocolate 0 "molding";
      call_elsewhere (PackagedChocolate.__init__ "P-1" noon "gift_box";; mret tt);
      call_inspect_chocolate 1 "packaging";
      call_elsewhere (PackagedChocolate.__init__ "P-2" noon "gift_box";; mret tt);
      call_inspect_chocolate 2 "packaging"]
     (QualityControlSystem.__init__, empty_world)).2.

(** ** The history, entry by entry *)



(** ** The simulation of a production run *)

(** A session at the console: the control system, the world around it, and
    the texts that [print] has written, the oldest first. *)
Definition Session : Type := QualityControlSystem.State * list string.

Definition in_system {A} (m : Eff QualityControlSystem.State A) : Eff Session A := λ s,
  let (a, st') := m s.1 in (a, (st', s.2)).

(** [print(text)] *)
Definition print (text : string) : Eff Session unit :=
  λ s, (Return tt, (s.1, s.2 ++ [text])).

(** [str(n)] of an [int] of either sign. *)
Definition str_int (n : Z) : string := pretty n.

(** One turn of the loop of [simulate_batch_production], for [i]. *)
Definition simulate_one (i : nat) : Eff Session unit :=
  now ← in_system (QualityControlSystem.in_world datetime_now);
  molded_chocolate ←
    in_system (QualityControlSystem.in_world
                 (MoldedChocolate.__init__ ("BATCH-M-" +:+ str (i + 1)) now "heart"));
  molding_result ←
    in_system (QualityControlSystem.inspect_chocolate molded_chocolate "molding");
  batch_id ← in_system (QualityControlSystem.in_world (Chocolate.batch_id molded_chocolate));
  print ("  Molding " +:+ batch_id +:+ ": " +:+ QualityStatus.value molding_result);;
  if bool_decide (molding_result = QualityStatus.APPROVED)
  then
    now ← in_system (QualityControlSystem.in_world datetime_now);
    packaged_chocolate ←
      in_system (QualityControlSystem.in_world
                   (PackagedChocolate.__init__ ("BATCH-P-" +:+ str (i + 1)) now "gift_box"));
    packaging_result ←
      in_system (QualityControlSystem.inspect_chocolate packaged_chocolate "packaging");
    batch_id ←
      in_system (QualityControlSystem.in_world (Chocolate.batch_id packaged_chocolate));
    print ("  Packaging " +:+ batch_id +:+ ": " +:+ QualityStatus.value packaging_result)
  else
    batch_id ←
      in_system (QualityControlSystem.in_world (Chocolate.batch_id molded_chocolate));
    print ("  ❌ Chocolate " +:+ batch_id +:+ " rejected in molding").

(** [simulate_batch_production(system, quantity)]; [range(quantity)] is
    empty when [quantity] is not positive. *)
Definition simulate_batch_production (quantity : Z) : Eff Session unit :=
  print (LF +:+ "Simulating production of " +:+ str_int quantity +:+ " chocolates...");;
  for_each (seq 0 (Z.to_nat quantity)) simulate_one.

(** ** More sensors to run the program on *)

(** A sensor that fails with the exception [e] on every chocolate. *)
Definition failing_sensor (e : Exception) : QualitySensor :=
  {| detect_defects := λ _, raise e |}.

(** The world after [n] more values of the random generator. *)
Definition drawn (n : nat) (w : World) : World :=
  {| lists := lists w; chocolates := chocolates w;
     random_source := random_source w; random_drawn := n + random_drawn w;
     clock_source := clock_source w; clock_read := clock_read w |}.

(** * Properties *)

(** ** Running a computation *)

Lemma bind_Return {S A B} (m : Eff S A) (f : A → Eff S B) s a s' :
  m s = (Return a, s') → (m ≫= f) s = f a s'.
Proof. intros H. unfold mbind, Eff_bind. by rewrite H. Qed.

Lemma bind_Raise {S A B} (m : Eff S A) (f : A → Eff S B) s e s' :
  m s = (Raise e, s') → (m ≫= f) s = (Raise e, s').
Proof. intros H. unfold mbind, Eff_bind. by rewrite H. Qed.

Lemma read_chocolate_Return w self c :
  chocolates w !! self = Some c → read_chocolate self w = (Return c, w).
Proof. intros H. unfold read_chocolate. by rewrite H. Qed.

Lemma read_list_Return w l xs :
  lists w !! l = Some xs → read_list l w = (Return xs, w).
Proof. intros H. unfold read_list. by rewrite H. Qed.

Lemma set_and_return_status w self c s :
  chocolates w !! self = Some c →
  (set_quality_status self s;; c' ← read_chocolate self; mret (_quality_status c')) w
  = (Return s, with_chocolates (<[self := set_status s c]> (chocolates w)) w).
Proof.
  intros H. unfold mbind, Eff_bind, set_quality_status, read_chocolate.
  rewrite H. simpl. by rewrite lookup_insert_eq.
Qed.

(** ** The evaluation rules *)

Section evaluation.
Variables (w : World) (self : loc) (c : Chocolate_object) (D : list DefectType.t).
Hypothesis Hself : chocolates w !! self = Some c.
Hypothesis Hdefects : lists w !! _defects c = Some D.

Lemma Chocolate_evaluate_quality_run :
  Chocolate.evaluate_quality self w
  = (let s := if bool_decide (D = []) then QualityStatus.APPROVED
              else QualityStatus.REJECTED in
     (Return s, with_chocolates (<[self := set_status s c]> (chocolates w)) w)).
Proof.
  unfold Chocolate.evaluate_quality.
  rewrite (bind_Return _ _ _ _ _ (read_chocolate_Return _ _ _ Hself)).
  rewrite (bind_Return _ _ _ _ _ (read_list_Return _ _ _ Hdefects)).
  case_bool_decide; by rewrite (set_and_return_status _ _ _ _ Hself).
Qed.

Lemma MoldedChocolate_evaluate_quality_run :
  MoldedChocolate.evaluate_quality self w
  = (let s := if bool_decide (DefectType.BUBBLES ∈ D)
                 || bool_decide (DefectType.BREAKAGE ∈ D)
                 || bool_decide (DefectType.INCORRECT_SHAPE ∈ D)
              then QualityStatus.REJECTED else QualityStatus.APPROVED in
     (Return s, with_chocolates (<[self := set_status s c]> (chocolates w)) w)).
Proof.
  unfold MoldedChocolate.evaluate_quality.
  rewrite (bind_Return _ _ _ _ _ (read_chocolate_Return _ _ _ Hself)).
  rewrite (bind_Return _ _ _ _ _ (read_list_Return _ _ _ Hdefects)).
  destruct (_ || _); by rewrite (set_and_return_status _ _ _ _ Hself).
Qed.

Lemma PackagedChocolate_evaluate_quality_run :
  PackagedChocolate.evaluate_quality self w
  = (let s := if bool_decide (DefectType.BREAKAGE ∈ D)
                 || bool_decide (DefectType.DAMAGED_PACKAGING ∈ D)
                 || bool_decide (DefectType.MISSING_PIECE ∈ D)
              then QualityStatus.REJECTED else QualityStatus.APPROVED in
     (Return s, with_chocolates (<[self := set_status s c]> (chocolates w)) w)).
Proof.
  unfold PackagedChocolate.evaluate_quality.
  rewrite (bind_Return _ _ _ _ _ (read_chocolate_Return _ _ _ Hself)).
  rewrite (bind_Return _ _ _ _ _ (read_list_Return _ _ _ Hdefects)).
  destruct (_ || _); by rewrite (set_and_return_status _ _ _ _ Hself).
Qed.

Lemma evaluate_quality_dispatch :
  evaluate_quality self w
  = match __class__ c with
    | cls_Chocolate => Chocolate.evaluate_quality self w
    | cls_MoldedChocolate _ => MoldedChocolate.evaluate_quality self w
    | cls_PackagedChocolate _ => PackagedChocolate.evaluate_quality self w
    end.
Proof.
  unfold evaluate_quality.
  rewrite (bind_Return _ _ _ _ _ (read_chocolate_Return _ _ _ Hself)).
  by destruct (__class__ c).
Qed.
End evaluation.

Lemma orb3_false (a b c : bool) : a || b || c = false ↔ a = false ∧ b = false ∧ c = false.
Proof. destruct a, b, c; simpl; intuition congruence. Qed.

Lemma orb3_true (a b c : bool) : a || b || c = true ↔ a = true ∨ b = true ∨ c = true.
Proof. destruct a, b, c; simpl; intuition congruence. Qed.

(** C1. A [MoldedChocolate] that carries the defects [D] is rejected by
    [evaluate_quality] if and only if [D] holds at least one of bubbles,
    breakage and incorrect shape; otherwise it is approved, and so it is
    when [D] holds nothing but stains.  The status returned is the one the
    chocolate is left with. *)
Theorem MoldedChocolate_rejected_iff w self c mold_type D :
  chocolates w !! self = Some c →
  __class__ c = cls_MoldedChocolate mold_type →
  lists w !! _defects c = Some D →
  ∃ s w',
    evaluate_quality self w = (Return s, w')
    ∧ _quality_status <$> chocolates w' !! self = Some s
    ∧ (s = QualityStatus.REJECTED ↔
         DefectType.BUBBLES ∈ D ∨ DefectType.BREAKAGE ∈ D
         ∨ DefectType.INCORRECT_SHAPE ∈ D)
    ∧ (s = QualityStatus.APPROVED ↔
         ¬ (DefectType.BUBBLES ∈ D ∨ DefectType.BREAKAGE ∈ D
            ∨ DefectType.INCORRECT_SHAPE ∈ D))
    ∧ ((∀ d, d ∈ D → d = DefectType.STAINS) → s = QualityStatus.APPROVED).
Proof.
  intros Hself Hcls HD.
  rewrite (evaluate_quality_dispatch _ _ _ Hself), Hcls,
    (MoldedChocolate_evaluate_quality_run _ _ _ _ Hself HD).
  eexists _, _. split; [reflexivity|].
  split; [simpl; by rewrite lookup_insert_eq|].
  destruct (_ || _) eqn:E.
  - apply orb3_true in E. rewrite !bool_decide_eq_true in E.
    repeat split; try done.
    intros Hstains. destruct E as [E|[E|E]]; by apply Hstains in E.
  - apply orb3_false in E. rewrite !bool_decide_eq_false in E.
    repeat split; try done; intuition congruence.
Qed.

Lemma MoldedChocolate_rejected_iff_witness :
  ∃ s w',
    evaluate_quality 0 (world_with (cls_MoldedChocolate "heart") "M-1" [DefectType.STAINS])
    = (Return s, w')
    ∧ _quality_status <$> chocolates w' !! 0 = Some s
    ∧ (s = QualityStatus.REJECTED ↔
         DefectType.BUBBLES ∈ [DefectType.STAINS]
         ∨ DefectType.BREAKAGE ∈ [DefectType.STAINS]
         ∨ DefectType.INCORRECT_SHAPE ∈ [DefectType.STAINS])
    ∧ (s = QualityStatus.APPROVED ↔
         ¬ (DefectType.BUBBLES ∈ [DefectType.STAINS]
            ∨ DefectType.BREAKAGE ∈ [DefectType.STAINS]
            ∨ DefectType.INCORRECT_SHAPE ∈ [DefectType.STAINS]))
    ∧ ((∀ d, d ∈ [DefectType.STAINS] → d = DefectType.STAINS)
       → s = QualityStatus.APPROVED).
Proof.
  apply (MoldedChocolate_rejected_iff
           (world_with (cls_MoldedChocolate "heart") "M-1" [DefectType.STAINS])
           0 (fresh_chocolate (cls_MoldedChocolate "heart") "M-1") "heart" [DefectType.STAINS]); reflexivity.
Defined.

(** C2. A [PackagedChocolate] that carries the defects [D] is rejected by
    [evaluate_quality] if and only if [D] holds at least one of breakage,
    damaged packaging and missing piece, and is approved otherwise.  The
    status returned is the one the chocolate is left with. *)
Theorem PackagedChocolate_rejected_iff w self c packaging_type D :
  chocolates w !! self = Some c →
  __class__ c = cls_PackagedChocolate packaging_type →
  lists w !! _defects c = Some D →
  ∃ s w',
    evaluate_quality self w = (Return s, w')
    ∧ _quality_status <$> chocolates w' !! self = Some s
    ∧ (s = QualityStatus.REJECTED ↔
         DefectType.BREAKAGE ∈ D ∨ DefectType.DAMAGED_PACKAGING ∈ D
         ∨ DefectType.MISSING_PIECE ∈ D)
    ∧ (s = QualityStatus.APPROVED ↔
         ¬ (DefectType.BREAKAGE ∈ D ∨ DefectType.DAMAGED_PACKAGING ∈ D
            ∨ DefectType.MISSING_PIECE ∈ D)).
Proof.
  intros Hself Hcls HD.
  rewrite (evaluate_quality_dispatch _ _ _ Hself), Hcls,
    (PackagedChocolate_evaluate_quality_run _ _ _ _ Hself HD).
  eexists _, _. split; [reflexivity|].
  split; [simpl; by rewrite lookup_insert_eq|].
  destruct (_ || _) eqn:E.
  - apply orb3_true in E. rewrite !bool_decide_eq_true in E. by repeat split.
  - apply orb3_false in E. rewrite !bool_decide_eq_false in E.
    repeat split; try done; intuition congruence.
Qed.

Lemma PackagedChocolate_rejected_iff_witness :
  ∃ s w',
    evaluate_quality 0
      (world_with (cls_PackagedChocolate "gift_box") "P-1"
                  [DefectType.STAINS; DefectType.MISSING_PIECE])
    = (Return s, w')
    ∧ _quality_status <$> chocolates w' !! 0 = Some s
    ∧ (s = QualityStatus.REJECTED ↔
         DefectType.BREAKAGE ∈ [DefectType.STAINS; DefectType.MISSING_PIECE]
         ∨ DefectType.DAMAGED_PACKAGING ∈ [DefectType.STAINS; DefectType.MISSING_PIECE]
         ∨ DefectType.MISSING_PIECE ∈ [DefectType.STAINS; DefectType.MISSING_PIECE])
    ∧ (s = QualityStatus.APPROVED ↔
         ¬ (DefectType.BREAKAGE ∈ [DefectType.STAINS; DefectType.MISSING_PIECE]
            ∨ DefectType.DAMAGED_PACKAGING ∈ [DefectType.STAINS; DefectType.MISSING_PIECE]
            ∨ DefectType.MISSING_PIECE ∈ [DefectType.STAINS; DefectType.MISSING_PIECE])).
Proof.
  apply (PackagedChocolate_rejected_iff
            (world_with (cls_PackagedChocolate "gift_box") "P-1"
                        [DefectType.STAINS; DefectType.MISSING_PIECE])
            0 (fresh_chocolate (cls_PackagedChocolate "gift_box") "P-1") "gift_box" [DefectType.STAINS; DefectType.MISSING_PIECE]);
    reflexivity.
Defined.

(** C7. [evaluate_quality] on a chocolate of any class returns, and what it
    returns is approved or rejected, never pending and never an exception.
    On a chocolate of the base class it returns approved when the chocolate
    carries no defect and rejected when it carries one. *)
Theorem evaluate_quality_total w self c D :
  chocolates w !! self = Some c →
  lists w !! _defects c = Some D →
  ∃ s w',
    evaluate_quality self w = (Return s, w')
    ∧ (s = QualityStatus.APPROVED ∨ s = QualityStatus.REJECTED)
    ∧ (__class__ c = cls_Chocolate →
         (D = [] → s = QualityStatus.APPROVED)
         ∧ (D ≠ [] → s = QualityStatus.REJECTED)).
Proof.
  intros Hself HD. rewrite (evaluate_quality_dispatch _ _ _ Hself).
  destruct (__class__ c) eqn:Hcls.
  - rewrite (Chocolate_evaluate_quality_run _ _ _ _ Hself HD).
    eexists _, _. split; [reflexivity|]. simpl.
    case_bool_decide; intuition congruence.
  - rewrite (MoldedChocolate_evaluate_quality_run _ _ _ _ Hself HD).
    eexists _, _. split; [reflexivity|]. simpl.
    destruct (_ || _); intuition congruence.
  - rewrite (PackagedChocolate_evaluate_quality_run _ _ _ _ Hself HD).
    eexists _, _. split; [reflexivity|]. simpl.
    destruct (_ || _); intuition congruence.
Qed.

Lemma evaluate_quality_total_witness :
  ∃ s w',
    evaluate_quality 0 (world_with cls_Chocolate "C-1" [DefectType.STAINS])
    = (Return s, w')
    ∧ (s = QualityStatus.APPROVED ∨ s = QualityStatus.REJECTED)
    ∧ (__class__ (fresh_chocolate cls_Chocolate "C-1") = cls_Chocolate →
         ([DefectType.STAINS] = [] → s = QualityStatus.APPROVED)
         ∧ ([DefectType.STAINS] ≠ [] → s = QualityStatus.REJECTED)).
Proof.
  apply (evaluate_quality_total
            (world_with cls_Chocolate "C-1" [DefectType.STAINS])
            0 (fresh_chocolate cls_Chocolate "C-1") [DefectType.STAINS]);
    reflexivity.
Defined.

(** ** The defect list of a chocolate *)

Lemma new_list_run w xs :
  let l := fresh (dom (lists w)) in
  new_list xs w = (Return l, with_lists (<[l := xs]> (lists w)) w)
  ∧ lists w !! l = None.
Proof. split; [done|]. apply not_elem_of_dom, is_fresh. Qed.

Lemma write_list_Return w l xs :
  is_Some (lists w !! l) →
  write_list l xs w = (Return tt, with_lists (<[l := xs]> (lists w)) w).
Proof. intros [ys H]. unfold write_list. by rewrite H. Qed.

Lemma add_defect_run w self c (D : list DefectType.t) d :
  chocolates w !! self = Some c →
  lists w !! _defects c = Some D →
  Chocolate.add_defect self d w
  = (Return tt,
     if bool_decide (d ∈ D) then w
     else with_lists (<[_defects c := (D ++ [d])]> (lists w)) w).
Proof.
  intros Hself HD. unfold Chocolate.add_defect.
  rewrite (bind_Return _ _ _ _ _ (read_chocolate_Return _ _ _ Hself)).
  rewrite (bind_Return _ _ _ _ _ (read_list_Return _ _ _ HD)).
  case_bool_decide as Hin.
  - rewrite bool_decide_eq_false_2 by done. unfold list_append.
    rewrite (bind_Return _ _ _ _ _ (read_list_Return _ _ _ HD)).
    by rewrite write_list_Return.
  - by rewrite bool_decide_eq_true_2.
Qed.

(** The status [evaluate_quality] returns depends on the class of the
    chocolate and on the defects it carries, and on nothing else. *)
Lemma evaluate_quality_same_defects w1 w2 self c1 c2 D :
  chocolates w1 !! self = Some c1 → lists w1 !! _defects c1 = Some D →
  chocolates w2 !! self = Some c2 → lists w2 !! _defects c2 = Some D →
  __class__ c1 = __class__ c2 →
  (evaluate_quality self w1).1 = (evaluate_quality self w2).1.
Proof.
  intros H1 HD1 H2 HD2 Hcls.
  rewrite (evaluate_quality_dispatch _ _ _ H1), (evaluate_quality_dispatch _ _ _ H2).
  rewrite <- Hcls. destruct (__class__ c1).
  - by rewrite (Chocolate_evaluate_quality_run _ _ _ _ H1 HD1),
      (Chocolate_evaluate_quality_run _ _ _ _ H2 HD2).
  - by rewrite (MoldedChocolate_evaluate_quality_run _ _ _ _ H1 HD1),
      (MoldedChocolate_evaluate_quality_run _ _ _ _ H2 HD2).
  - by rewrite (PackagedChocolate_evaluate_quality_run _ _ _ _ H1 HD1),
      (PackagedChocolate_evaluate_quality_run _ _ _ _ H2 HD2).
Qed.

(** C8. [add_defect] always succeeds and makes the defects of the chocolate
    the union of what they were and the new kind: a kind already there
    leaves the world as it is, a kind that is absent is added at the end,
    no defect is ever removed, and adding the same kind a second time
    changes nothing, so that the list is as long as after adding it
    once. *)
Theorem add_defect_union_insert w self c (D : list DefectType.t) d :
  chocolates w !! self = Some c →
  lists w !! _defects c = Some D →
  ∃ w' (D' : list DefectType.t),
    Chocolate.add_defect self d w = (Return tt, w')
    ∧ chocolates w' = chocolates w
    ∧ lists w' !! _defects c = Some D'
    ∧ (d ∈ D → w' = w)
    ∧ (d ∉ D → D' = (D ++ [d]))
    ∧ (∀ x, x ∈ D' ↔ x ∈ D ∨ x = d)
    ∧ (∀ x, x ∈ D → x ∈ D')
    ∧ Chocolate.add_defect self d w' = (Return tt, w').
Proof.
  intros Hself HD. rewrite (add_defect_run _ _ _ _ _ Hself HD).
  case_bool_decide as Hin.
  - exists w, D. repeat split; try done.
    + tauto.
    + intros [?| ->]; done.
    + rewrite (add_defect_run _ _ _ _ _ Hself HD). by rewrite bool_decide_eq_true_2.
  - eexists _, (D ++ [d]). split; [reflexivity|]. simpl.
    assert (lists (with_lists (<[_defects c := (D ++ [d])]> (lists w)) w) !! _defects c
            = Some (D ++ [d])) as HD' by (simpl; by rewrite lookup_insert_eq).
    repeat split; try done.
    + rewrite elem_of_app, list_elem_of_singleton. tauto.
    + rewrite elem_of_app, list_elem_of_singleton. tauto.
    + intros ?. rewrite elem_of_app. tauto.
    + rewrite (add_defect_run
                 (with_lists (<[_defects c := (D ++ [d])]> (lists w)) w)
                 self c (D ++ [d]) d Hself HD').
      rewrite bool_decide_eq_true_2; [done|].
      rewrite elem_of_app, list_elem_of_singleton. tauto.
Qed.

Lemma add_defect_union_insert_witness :
  ∃ w' (D' : list DefectType.t),
    Chocolate.add_defect 0 DefectType.BUBBLES
      (world_with (cls_MoldedChocolate "heart") "M-1" [DefectType.STAINS])
    = (Return tt, w')
    ∧ chocolates w'
      = chocolates (world_with (cls_MoldedChocolate "heart") "M-1" [DefectType.STAINS])
    ∧ lists w' !! _defects (fresh_chocolate (cls_MoldedChocolate "heart") "M-1")
      = Some D'
    ∧ (DefectType.BUBBLES ∈ [DefectType.STAINS] →
       w' = world_with (cls_MoldedChocolate "heart") "M-1" [DefectType.STAINS])
    ∧ (DefectType.BUBBLES ∉ [DefectType.STAINS] →
       D' = [DefectType.STAINS] ++ [DefectType.BUBBLES])
    ∧ (∀ x, x ∈ D' ↔ x ∈ [DefectType.STAINS] ∨ x = DefectType.BUBBLES)
    ∧ (∀ x, x ∈ [DefectType.STAINS] → x ∈ D')
    ∧ Chocolate.add_defect 0 DefectType.BUBBLES w' = (Return tt, w').
Proof.
  apply (add_defect_union_insert
           (world_with (cls_MoldedChocolate "heart") "M-1" [DefectType.STAINS])
           0 (fresh_chocolate (cls_MoldedChocolate "heart") "M-1")
           [DefectType.STAINS] DefectType.BUBBLES); reflexivity.
Defined.

(** C9. The [defects] property returns a reference to a new list that holds
    the defects of the chocolate.  Whatever is then written into that list,
    the chocolate objects and every other list, the chocolate's own among
    them, stay as they were, and [evaluate_quality] returns what it returns
    without the write. *)
Theorem defects_returns_a_copy w self c D :
  chocolates w !! self = Some c →
  lists w !! _defects c = Some D →
  ∃ copy w',
    Chocolate.defects self w = (Return copy, w')
    ∧ lists w !! copy = None
    ∧ lists w' !! copy = Some D
    ∧ copy ≠ _defects c
    ∧ ∀ xs, ∃ w'',
        write_list copy xs w' = (Return tt, w'')
        ∧ lists w'' !! copy = Some xs
        ∧ chocolates w'' = chocolates w
        ∧ (∀ l, l ≠ copy → lists w'' !! l = lists w !! l)
        ∧ lists w'' !! _defects c = Some D
        ∧ (evaluate_quality self w'').1 = (evaluate_quality self w).1.
Proof.
  intros Hself HD. unfold Chocolate.defects.
  rewrite (bind_Return _ _ _ _ _ (read_chocolate_Return _ _ _ Hself)).
  rewrite (bind_Return _ _ _ _ _ (read_list_Return _ _ _ HD)).
  destruct (new_list_run w D) as [-> Hfresh].
  set (copy := fresh (dom (lists w))) in *.
  assert (copy ≠ _defects c) as Hne by (intros E; rewrite E in Hfresh; congruence).
  eexists copy, _. split; [reflexivity|].
  split; [done|]. split; [simpl; by rewrite lookup_insert_eq|]. split; [done|].
  intros xs. eexists. split.
  { apply write_list_Return. simpl. rewrite lookup_insert_eq. by eexists. }
  simpl. rewrite insert_insert_eq.
  assert (<[copy:=xs]> (lists w) !! _defects c = Some D) as HD'
    by (by rewrite lookup_insert_ne).
  repeat split; try done.
  - by rewrite lookup_insert_eq.
  - intros l Hl. by rewrite lookup_insert_ne.
  - by apply (evaluate_quality_same_defects _ _ self c c D).
Qed.

Lemma defects_returns_a_copy_witness :
  ∃ copy w',
    Chocolate.defects 0
      (world_with (cls_MoldedChocolate "heart") "M-1" [DefectType.STAINS])
    = (Return copy, w')
    ∧ lists (world_with (cls_MoldedChocolate "heart") "M-1" [DefectType.STAINS])
        !! copy = None
    ∧ lists w' !! copy = Some [DefectType.STAINS]
    ∧ copy ≠ _defects (fresh_chocolate (cls_MoldedChocolate "heart") "M-1")
    ∧ ∀ xs, ∃ w'',
        write_list copy xs w' = (Return tt, w'')
        ∧ lists w'' !! copy = Some xs
        ∧ chocolates w''
          = chocolates (world_with (cls_MoldedChocolate "heart") "M-1" [DefectType.STAINS])
        ∧ (∀ l, l ≠ copy →
             lists w'' !! l
             = lists (world_with (cls_MoldedChocolate "heart") "M-1" [DefectType.STAINS])
                 !! l)
        ∧ lists w'' !! _defects (fresh_chocolate (cls_MoldedChocolate "heart") "M-1")
          = Some [DefectType.STAINS]
        ∧ (evaluate_quality 0 w'').1
          = (evaluate_quality 0
               (world_with (cls_MoldedChocolate "heart") "M-1" [DefectType.STAINS])).1.
Proof.
  apply (defects_returns_a_copy
           (world_with (cls_MoldedChocolate "heart") "M-1" [DefectType.STAINS])
           0 (fresh_chocolate (cls_MoldedChocolate "heart") "M-1")
           [DefectType.STAINS]); reflexivity.
Defined.

(** ** Inspection *)

Import QualityControlSystem.

Lemma with_lists_same w : with_lists (lists w) w = w.
Proof. by destruct w. Qed.

Lemma added_present (D ds : list DefectType.t) :
  (∀ d, d ∈ ds → d ∈ D) → added D ds = D.
Proof.
  unfold added. induction ds as [|d ds IH]; intros Hin; [done|]. simpl.
  rewrite bool_decide_eq_true_2 by (apply Hin; left).
  apply IH. intros x Hx. apply Hin. by right.
Qed.

Lemma elem_of_added (D ds : list DefectType.t) x :
  x ∈ added D ds ↔ x ∈ D ∨ x ∈ ds.
Proof.
  unfold added. revert D. induction ds as [|d ds IH]; intros D; simpl.
  - rewrite elem_of_nil. tauto.
  - rewrite IH, elem_of_cons. case_bool_decide as Hd.
    + split; [tauto|]. intros [?|[->|?]]; tauto.
    + rewrite elem_of_app, list_elem_of_singleton. tauto.
Qed.

(** The loop of [inspect_chocolate]. *)
Lemma add_defects_run ds : ∀ w self c (D : list DefectType.t),
  chocolates w !! self = Some c →
  lists w !! _defects c = Some D →
  for_each ds (Chocolate.add_defect self) w
  = (Return tt, with_lists (<[_defects c := added D ds]> (lists w)) w).
Proof.
  induction ds as [|d ds IH]; intros w self c D Hself HD.
  - simpl. unfold mret, Eff_ret, added. simpl.
    by rewrite insert_id, with_lists_same.
  - simpl. rewrite (bind_Return _ _ _ _ _ (add_defect_run _ _ _ _ d Hself HD)).
    unfold added. simpl. case_bool_decide as Hd.
    + by apply IH.
    + rewrite (IH _ self c (D ++ [d])); simpl; try done.
      * by rewrite insert_insert_eq.
      * by rewrite lookup_insert_eq.
Qed.

(** The list the loop runs over is the same at every turn of the loop, so
    that running over the elements it held at the start is running over the
    list itself. *)
Lemma loop_list_unchanged w self c (D : list DefectType.t) l ds1 ds2 :
  chocolates w !! self = Some c →
  lists w !! _defects c = Some D →
  lists w !! l = Some (ds1 ++ ds2) →
  lists (for_each ds1 (Chocolate.add_defect self) w).2 !! l = Some (ds1 ++ ds2).
Proof.
  intros Hself HD Hl. rewrite (add_defects_run ds1 _ _ _ _ Hself HD). simpl.
  destruct (decide (l = _defects c)) as [->|Hne].
  - rewrite lookup_insert_eq. f_equal.
    assert (D = ds1 ++ ds2) as -> by congruence.
    apply added_present. intros d Hd. apply elem_of_app. by left.
  - by rewrite lookup_insert_ne.
Qed.

Lemma evaluate_quality_returns w self c D :
  chocolates w !! self = Some c →
  lists w !! _defects c = Some D →
  ∃ s, evaluate_quality self w
       = (Return s, with_chocolates (<[self := set_status s c]> (chocolates w)) w)
       ∧ (s = QualityStatus.APPROVED ∨ s = QualityStatus.REJECTED).
Proof.
  intros Hself HD. rewrite (evaluate_quality_dispatch _ _ _ Hself).
  destruct (__class__ c).
  - rewrite (Chocolate_evaluate_quality_run _ _ _ _ Hself HD).
    eexists. split; [reflexivity|]. case_bool_decide; tauto.
  - rewrite (MoldedChocolate_evaluate_quality_run _ _ _ _ Hself HD).
    eexists. split; [reflexivity|]. destruct (_ || _); tauto.
  - rewrite (PackagedChocolate_evaluate_quality_run _ _ _ _ Hself HD).
    eexists. split; [reflexivity|]. destruct (_ || _); tauto.
Qed.

Lemma in_world_bind {A B} (m : Eff World A) (f : A → Eff State B) s :
  (in_world m ≫= f) s
  = match m s.2 with
    | (Return a, w') => f a (s.1, w')
    | (Raise e, w') => (Raise e, (s.1, w'))
    end.
Proof. unfold mbind, Eff_bind, in_world. by destruct (m s.2) as [[a|e] w']. Qed.

(** C3. When no sensor is registered for the process, [inspect_chocolate]
    raises the [ValueError] that names the process and leaves the state as
    it found it: the ledger has no new entry, and the chocolates and their
    defects are what they were. *)
Theorem inspect_chocolate_unregistered sys w chocolate process :
  _sensors sys !! process = None →
  inspect_chocolate chocolate process (sys, w)
  = (Raise (ValueError ("No sensor registered for process: " +:+ process)), (sys, w)).
Proof.
  intros Hnone. unfold inspect_chocolate, mbind, Eff_bind, self. simpl.
  by rewrite Hnone.
Qed.

Lemma inspect_chocolate_unregistered_witness :
  inspect_chocolate 0 "molding"
    (__init__, world_with (cls_MoldedChocolate "heart") "M-1" [DefectType.STAINS])
  = (Raise (ValueError ("No sensor registered for process: " +:+ "molding")),
     (__init__, world_with (cls_MoldedChocolate "heart") "M-1" [DefectType.STAINS])).
Proof.
  apply (inspect_chocolate_unregistered __init__
           (world_with (cls_MoldedChocolate "heart") "M-1" [DefectType.STAINS])
           0 "molding").
  reflexivity.
Defined.

Lemma in_world_Return {A} (m : Eff World A) sys w a w' :
  m w = (Return a, w') → in_world m (sys, w) = (Return a, (sys, w')).
Proof. intros H. unfold in_world. simpl. by rewrite H. Qed.

Lemma _register_result_run sys w chocolate defects st process c ds :
  chocolates w !! chocolate = Some c →
  lists w !! defects = Some ds →
  _register_result chocolate defects st process (sys, w)
  = (Return tt,
     ({| _sensors := _sensors sys;
         _results := _results sys ++
           [{| record.batch_id := _batch_id c;
               record.date := clock_source w (clock_read w);
               record.process := process;
               record.defects := DefectType.value <$> ds;
               record.result := QualityStatus.value st;
               record.chocolate_type := __name__ (__class__ c) |}] |},
      {| lists := lists w; chocolates := chocolates w;
         random_source := random_source w; random_drawn := random_drawn w;
         clock_source := clock_source w; clock_read := S (clock_read w) |})).
Proof.
  intros Hc Hds.
  unfold _register_result, Chocolate.batch_id, in_world, mbind, Eff_bind,
    read_chocolate, read_list, datetime_now, _results_append, mret, Eff_ret.
  simpl. rewrite Hc. simpl. rewrite Hds. simpl. by rewrite Hc.
Qed.

(** What [inspect_chocolate] does when the sensor returns a list: the state
    it leaves, in full. *)
Lemma inspect_chocolate_run sys w chocolate process sensor defects w1 ds c D :
  _sensors sys !! process = Some sensor →
  detect_defects sensor chocolate w = (Return defects, w1) →
  lists w1 !! defects = Some ds →
  chocolates w1 !! chocolate = Some c →
  lists w1 !! _defects c = Some D →
  ∃ st,
    (st = QualityStatus.APPROVED ∨ st = QualityStatus.REJECTED)
    ∧ (evaluate_quality chocolate
         (with_lists (<[_defects c := added D ds]> (lists w1)) w1)).1 = Return st
    ∧ inspect_chocolate chocolate process (sys, w)
      = (Return st,
         ({| _sensors := _sensors sys;
             _results := _results sys ++
               [{| record.batch_id := _batch_id c;
                   record.date := clock_source w1 (clock_read w1);
                   record.process := process;
                   record.defects := DefectType.value <$> ds;
                   record.result := QualityStatus.value st;
                   record.chocolate_type := __name__ (__class__ c) |}] |},
          {| lists := <[_defects c := added D ds]> (lists w1);
             chocolates := <[chocolate := set_status st c]> (chocolates w1);
             random_source := random_source w1; random_drawn := random_drawn w1;
             clock_source := clock_source w1; clock_read := S (clock_read w1) |})).
Proof.
  intros Hsensor Hdetect Hds Hc HD.
  set (w2 := with_lists (<[_defects c := added D ds]> (lists w1)) w1).
  assert (lists w2 !! _defects c = Some (added D ds)) as HD2
    by (simpl; by rewrite lookup_insert_eq).
  destruct (evaluate_quality_returns w2 chocolate c _ Hc HD2) as (st & Heval & Hst).
  set (w3 := with_chocolates (<[chocolate := set_status st c]> (chocolates w2)) w2) in *.
  assert (lists w3 !! defects = Some ds) as Hds3.
  { simpl. destruct (decide (defects = _defects c)) as [->|Hne].
    - rewrite lookup_insert_eq. f_equal.
      assert (D = ds) as -> by congruence. by apply added_present.
    - by rewrite lookup_insert_ne. }
  assert (chocolates w3 !! chocolate = Some (set_status st c)) as Hc3
    by (simpl; by rewrite lookup_insert_eq).
  exists st. split; [done|]. split; [by rewrite Heval|].
  unfold inspect_chocolate.
  rewrite (bind_Return self _ (sys, w) sys (sys, w) eq_refl). simpl. rewrite Hsensor.
  rewrite (bind_Return _ _ _ _ _ (in_world_Return _ sys _ _ _ Hdetect)).
  rewrite (bind_Return _ _ _ _ _ (in_world_Return _ sys _ _ _ (read_list_Return _ _ _ Hds))).
  rewrite (bind_Return _ _ _ _ _
             (in_world_Return _ sys _ _ _ (add_defects_run ds _ _ _ _ Hc HD))).
  rewrite (bind_Return _ _ _ _ _ (in_world_Return _ sys _ _ _ Heval)).
  rewrite (bind_Return _ _ _ _ _
             (_register_result_run sys w3 chocolate defects st process _ _ Hc3 Hds3)).
  reflexivity.
Qed.

Lemma bind_Return_inv {S A B} (m : Eff S A) (f : A → Eff S B) s b s' :
  (m ≫= f) s = (Return b, s') →
  ∃ a s1, m s = (Return a, s1) ∧ f a s1 = (Return b, s').
Proof.
  unfold mbind, Eff_bind. destruct (m s) as [[a|e] s1]; [|done].
  intros H. by exists a, s1.
Qed.

Lemma in_world_Return_inv {A} (m : Eff World A) sys w a s' :
  in_world m (sys, w) = (Return a, s') →
  ∃ w', m w = (Return a, w') ∧ s' = (sys, w').
Proof.
  unfold in_world. simpl. destruct (m w) as [o w']. intros [= -> <-]. by exists w'.
Qed.

Lemma read_list_Return_inv w l xs w' :
  read_list l w = (Return xs, w') → lists w !! l = Some xs ∧ w' = w.
Proof. unfold read_list. destruct (lists w !! l); [|done]. by intros [= -> ->]. Qed.

Lemma read_chocolate_Return_inv w l c w' :
  read_chocolate l w = (Return c, w') → chocolates w !! l = Some c ∧ w' = w.
Proof. unfold read_chocolate. destruct (chocolates w !! l); [|done]. by intros [= -> ->]. Qed.

(** [evaluate_quality] returns only for a chocolate that is in the store
    with its list of defects. *)
Lemma evaluate_quality_Return_inv w self s w' :
  evaluate_quality self w = (Return s, w') →
  ∃ c D, chocolates w !! self = Some c ∧ lists w !! _defects c = Some D.
Proof.
  unfold evaluate_quality. intros H.
  apply bind_Return_inv in H as (c & w1 & Hc & H).
  apply read_chocolate_Return_inv in Hc as [Hc ->].
  exists c. destruct (lists w !! _defects c) as [D|] eqn:HD; [by exists D|].
  exfalso.
  destruct (__class__ c);
    [unfold Chocolate.evaluate_quality in H
    |unfold MoldedChocolate.evaluate_quality in H
    |unfold PackagedChocolate.evaluate_quality in H];
    rewrite (bind_Return _ _ _ _ _ (read_chocolate_Return _ _ _ Hc)) in H;
    apply bind_Return_inv in H as (xs & w1 & Hxs & _);
    apply read_list_Return_inv in Hxs as [Hxs _]; congruence.
Qed.

(** The loop of [inspect_chocolate] changes neither which chocolates there
    are nor which lists. *)
Lemma add_defects_Return_inv ds w self w' c' D' :
  for_each ds (Chocolate.add_defect self) w = (Return tt, w') →
  chocolates w' !! self = Some c' →
  lists w' !! _defects c' = Some D' →
  chocolates w !! self = Some c' ∧ is_Some (lists w !! _defects c').
Proof.
  intros Hrun Hc' HD'.
  destruct (chocolates w !! self) as [c|] eqn:Hc.
  - destruct (lists w !! _defects c) as [D|] eqn:HD.
    + rewrite (add_defects_run ds _ _ _ _ Hc HD) in Hrun.
      injection Hrun as <-. simpl in Hc'. rewrite Hc in Hc'.
      injection Hc' as <-. split; [done|]. by exists D.
    + destruct ds as [|d ds].
      * injection Hrun as <-. rewrite Hc in Hc'. injection Hc' as <-. congruence.
      * simpl in Hrun. apply bind_Return_inv in Hrun as (? & w1 & Hadd & _).
        unfold Chocolate.add_defect in Hadd.
        rewrite (bind_Return _ _ _ _ _ (read_chocolate_Return _ _ _ Hc)) in Hadd.
        apply bind_Return_inv in Hadd as (xs & ? & Hxs & _).
        apply read_list_Return_inv in Hxs as [Hxs _]. congruence.
  - destruct ds as [|d ds].
    + injection Hrun as <-. congruence.
    + simpl in Hrun. apply bind_Return_inv in Hrun as (? & w1 & Hadd & _).
      unfold Chocolate.add_defect in Hadd.
      apply bind_Return_inv in Hadd as (? & ? & Hread & _).
      apply read_chocolate_Return_inv in Hread as [Hread _]. congruence.
Qed.

(** An inspection that returns went through a registered sensor that
    returned a list, for a chocolate that is in the store. *)
Lemma inspect_chocolate_Return_inv chocolate process sys w st s' :
  inspect_chocolate chocolate process (sys, w) = (Return st, s') →
  ∃ sensor defects w1 ds c D,
    _sensors sys !! process = Some sensor
    ∧ detect_defects sensor chocolate w = (Return defects, w1)
    ∧ lists w1 !! defects = Some ds
    ∧ chocolates w1 !! chocolate = Some c
    ∧ lists w1 !! _defects c = Some D.
Proof.
  unfold inspect_chocolate. intros H.
  apply bind_Return_inv in H as (this & s1 & [= <- <-] & H). simpl in H.
  destruct (_sensors sys !! process) as [sensor|]; [|done].
  apply bind_Return_inv in H as (defects & s1 & Hdetect & H).
  apply in_world_Return_inv in Hdetect as (w1 & Hdetect & ->).
  apply bind_Return_inv in H as (ds & s1 & Hds & H).
  apply in_world_Return_inv in Hds as (? & Hds & ->).
  apply read_list_Return_inv in Hds as [Hds ->].
  apply bind_Return_inv in H as ([] & s1 & Hloop & H).
  apply in_world_Return_inv in Hloop as (w2 & Hloop & ->).
  apply bind_Return_inv in H as (result & s1 & Heval & _).
  apply in_world_Return_inv in Heval as (w3 & Heval & ->).
  apply evaluate_quality_Return_inv in Heval as (c & D2 & Hc2 & HD2).
  destruct (add_defects_Return_inv _ _ _ _ _ _ Hloop Hc2 HD2) as [Hc [D HD]].
  by exists sensor, defects, w1, ds, c, D.
Qed.

(** C6. The record that an inspection that returns adds to the ledger holds
    the defects of the list the sensor returned in that call, in their
    order and with their repetitions, whatever the chocolate carried
    before, together with the batch id of the chocolate, the name of the
    process, the status the inspection returns and the name of the class of
    the chocolate. *)
Theorem inspect_chocolate_record chocolate process sys w st sys' w' :
  inspect_chocolate chocolate process (sys, w) = (Return st, (sys', w')) →
  ∃ sensor defects w1 ds c date,
    _sensors sys !! process = Some sensor
    ∧ detect_defects sensor chocolate w = (Return defects, w1)
    ∧ lists w1 !! defects = Some ds
    ∧ chocolates w' !! chocolate = Some c
    ∧ _results sys'
      = _results sys ++
        [{| record.batch_id := _batch_id c;
            record.date := date;
            record.process := process;
            record.defects := DefectType.value <$> ds;
            record.result := QualityStatus.value st;
            record.chocolate_type := __name__ (__class__ c) |}].
Proof.
  intros H.
  destruct (inspect_chocolate_Return_inv _ _ _ _ _ _ H)
    as (sensor & defects & w1 & ds & c & D & Hsensor & Hdetect & Hds & Hc & HD).
  destruct (inspect_chocolate_run sys w chocolate process _ _ _ _ _ _
              Hsensor Hdetect Hds Hc HD) as (st' & _ & _ & Hrun).
  rewrite Hrun in H. injection H as -> <- <-.
  exists sensor, defects, w1, ds, (set_status st c), (clock_source w1 (clock_read w1)).
  repeat split; try done. simpl. by rewrite lookup_insert_eq.
Qed.

Lemma inspect_chocolate_record_witness :
  let w := world_with (cls_MoldedChocolate "heart") "M-1" [DefectType.STAINS] in
  let after := (inspect_chocolate 0 "molding" (bubbles_system, w)).2 in
  ∃ sensor defects w1 ds c date,
    _sensors bubbles_system !! "molding" = Some sensor
    ∧ detect_defects sensor 0 w = (Return defects, w1)
    ∧ lists w1 !! defects = Some ds
    ∧ chocolates after.2 !! 0 = Some c
    ∧ _results after.1
      = _results bubbles_system ++
        [{| record.batch_id := _batch_id c;
            record.date := date;
            record.process := "molding";
            record.defects := DefectType.value <$> ds;
            record.result := QualityStatus.value QualityStatus.REJECTED;
            record.chocolate_type := __name__ (__class__ c) |}].
Proof.
  intros w after.
  apply (inspect_chocolate_record 0 "molding" bubbles_system w
           QualityStatus.REJECTED after.1 after.2).
  reflexivity.
Defined.

(** The record holds what the sensor found in this call, twice the bubbles,
    and not the stains the chocolate carried before; the chocolate ends with
    the stains and, once, the bubbles. *)
Example bubbles_recorded_twice :
  let w := world_with (cls_MoldedChocolate "heart") "M-1" [DefectType.STAINS] in
  let after := (inspect_chocolate 0 "molding" (bubbles_system, w)).2 in
  _results after.1
  = [{| record.batch_id := "M-1"; record.date := noon;
        record.process := "molding";
        record.defects := ["air_bubbles"; "air_bubbles"];
        record.result := "rejected";
        record.chocolate_type := "MoldedChocolate" |}]
  ∧ lists after.2 !! 0 = Some [DefectType.STAINS; DefectType.BUBBLES].
Proof. split; reflexivity. Qed.

(** ** The visual sensor and a chocolate of the base class *)

Lemma VisualSensor_detect_defects_base w chocolate c :
  chocolates w !! chocolate = Some c →
  __class__ c = cls_Chocolate →
  VisualSensor.detect_defects chocolate w
  = (Return (fresh (dom (lists w))),
     with_lists (<[fresh (dom (lists w)) := []]> (lists w)) w).
Proof.
  intros Hc Hcls. unfold VisualSensor.detect_defects.
  destruct (new_list_run w []) as [Hnew _].
  rewrite (bind_Return _ _ _ _ _ Hnew).
  rewrite (bind_Return _ _ _ c _
             (read_chocolate_Return
                (with_lists (<[fresh (dom (lists w)) := []]> (lists w)) w) _ _ Hc)).
  by rewrite Hcls.
Qed.

(** C10, as the code has it.  For a chocolate of the base class the visual
    sensor returns a new, empty list and changes nothing else: the
    chocolates, the lists there were, the random generator and the clock
    are what they were.  An inspection of such a chocolate through the
    visual sensor therefore adds no defect to it, and returns approved when
    the chocolate carried no defect before the call and rejected when it
    carried one. *)
Theorem VisualSensor_base_chocolate sys w chocolate process c D :
  chocolates w !! chocolate = Some c →
  __class__ c = cls_Chocolate →
  lists w !! _defects c = Some D →
  _sensors sys !! process = Some VisualSensor.__init__ →
  ∃ l,
    lists w !! l = None
    ∧ VisualSensor.detect_defects chocolate w
      = (Return l, with_lists (<[l := []]> (lists w)) w)
    ∧ ∃ st s',
        inspect_chocolate chocolate process (sys, w) = (Return st, s')
        ∧ lists s'.2 !! _defects c = Some D
        ∧ (D = [] → st = QualityStatus.APPROVED)
        ∧ (D ≠ [] → st = QualityStatus.REJECTED).
Proof.
  intros Hc Hcls HD Hsensor.
  destruct (new_list_run w []) as [_ Hfresh].
  set (l := fresh (dom (lists w))) in *.
  assert (l ≠ _defects c) as Hne by (intros E; rewrite E in Hfresh; congruence).
  pose proof (VisualSensor_detect_defects_base w chocolate c Hc Hcls) as Hdetect.
  fold l in Hdetect.
  exists l. split; [done|]. split; [done|].
  set (w1 := with_lists (<[l := []]> (lists w)) w) in *.
  assert (lists w1 !! l = Some []) as Hl by (simpl; by rewrite lookup_insert_eq).
  assert (lists w1 !! _defects c = Some D) as HD1 by (simpl; by rewrite lookup_insert_ne).
  destruct (inspect_chocolate_run sys w chocolate process VisualSensor.__init__
              l w1 [] c D Hsensor Hdetect Hl Hc HD1) as (st & _ & Heval & Hrun).
  exists st. eexists. split; [exact Hrun|].
  split; [simpl; by rewrite lookup_insert_eq|].
  change (added D []) with D in Heval.
  set (w2 := with_lists (<[_defects c := D]> (lists w1)) w1) in *.
  assert (lists w2 !! _defects c = Some D) as HD2
    by (simpl; by rewrite lookup_insert_eq).
  rewrite (evaluate_quality_dispatch w2 _ c Hc), Hcls,
    (Chocolate_evaluate_quality_run w2 _ c D Hc HD2) in Heval.
  simpl in Heval. case_bool_decide; split; congruence.
Qed.

Lemma VisualSensor_base_chocolate_witness :
  let w := world_with cls_Chocolate "C-1" [DefectType.STAINS] in
  ∃ l,
    lists w !! l = None
    ∧ VisualSensor.detect_defects 0 w
      = (Return l, with_lists (<[l := []]> (lists w)) w)
    ∧ ∃ st s',
        inspect_chocolate 0 "molding" (visual_system, w) = (Return st, s')
        ∧ lists s'.2 !! _defects (fresh_chocolate cls_Chocolate "C-1")
          = Some [DefectType.STAINS]
        ∧ ([DefectType.STAINS] = [] → st = QualityStatus.APPROVED)
        ∧ ([DefectType.STAINS] ≠ [] → st = QualityStatus.REJECTED).
Proof.
  intros w.
  apply (VisualSensor_base_chocolate visual_system w 0 "molding"
           (fresh_chocolate cls_Chocolate "C-1") [DefectType.STAINS]);
    reflexivity.
Defined.

(** C10 as it was stated fails here: a chocolate of the base class that
    already carries stains is rejected when it is inspected through the
    visual sensor, although the sensor finds nothing. *)
Lemma inspect_base_chocolate_rejected :
  let w := world_with cls_Chocolate "C-1" [DefectType.STAINS] in
  chocolates w !! 0 = Some (fresh_chocolate cls_Chocolate "C-1")
  ∧ lists w !! 0 = Some [DefectType.STAINS]
  ∧ _sensors visual_system !! "molding" = Some VisualSensor.__init__
  ∧ (∃ l w1, VisualSensor.detect_defects 0 w = (Return l, w1)
             ∧ lists w1 !! l = Some [])
  ∧ (inspect_chocolate 0 "molding" (visual_system, w)).1
    = Return QualityStatus.REJECTED.
Proof.
  repeat split; try reflexivity. by eexists _, _.
Qed.

(** ** Binary64 arithmetic *)

Section float_error.
Local Open Scope R_scope.



















End float_error.

(** ** The summary report *)

Lemma sum_of_ones {A} (xs : list A) : sum_list ((λ _, 1) <$> xs) = length xs.
Proof. induction xs as [|x xs IH]; csimpl; [done|]. by rewrite IH. Qed.

Lemma length_filter_le {A} (P : A → Prop) `{∀ x, Decision (P x)} (xs : list A) :
  (length (filter P xs) ≤ length xs)%nat.
Proof.
  induction xs as [|x xs IH]; [done|].
  rewrite filter_cons. case_decide; simpl; lia.
Qed.

(** What [generate_report] returns, in full; it leaves the state as it is. *)
Lemma generate_report_run sys w :
  generate_report (sys, w)
  = (Return
       (if bool_decide (_results sys = [])
        then "No inspection data available to generate report."
        else
          let total := length (_results sys) in
          let approved :=
            length (filter (λ r, record.result r = "approved") (_results sys)) in
          let report :=
            LF +:+
            "        QUALITY CONTROL REPORT" +:+ LF +:+
            "        ======================" +:+ LF +:+
            "        Total inspections: " +:+ str total +:+ LF +:+
            "        Approved products: " +:+ str approved +:+ LF +:+
            "        Rejected products: " +:+ str (total - approved) +:+ LF +:+
            "        Approval rate: " +:+
              format_2f (float_mul (nearest_float (Z.of_nat approved) (Z.of_nat total))
                                   (float_of_int 100)) +:+ "%" +:+ LF +:+
            "        " +:+ LF +:+
            "        Defect details:" +:+ LF +:+
            "        " in
          if bool_decide (count_defects (_results sys) ≠ [])
          then foldl (λ report '(defect, count),
                        report +:+ "  - " +:+ defect +:+ ": " +:+ str count
                        +:+ " occurrences" +:+ LF)
                     report (count_defects (_results sys))
          else report +:+ "  No defects detected" +:+ LF),
     (sys, w)).
Proof.
  unfold generate_report.
  rewrite (bind_Return self _ (sys, w) sys (sys, w) eq_refl).
  case_bool_decide as Hempty; [done|].
  rewrite sum_of_ones.
  assert (0 < length (_results sys))%nat as Hpos
    by (destruct (_results sys); [done|simpl; lia]).
  rewrite (proj2 (Nat.ltb_lt _ _) Hpos).
  unfold int_truediv.
  rewrite (proj2 (Z.eqb_neq _ _)) by lia.
  reflexivity.
Qed.

Lemma append_assoc (a b c : string) : (a +:+ b) +:+ c = a +:+ (b +:+ c).
Proof.
  induction a as [|x a IH]; [done|].
  change (String x ((a +:+ b) +:+ c) = String x (a +:+ (b +:+ c))). by rewrite IH.
Qed.

Lemma append_empty_r (a : string) : a +:+ "" = a.
Proof.
  induction a as [|x a IH]; [done|].
  change (String x (a +:+ "") = String x a). by rewrite IH.
Qed.

Lemma foldl_append {A} (f : string → A → string) (line : A → string) :
  (∀ report x, f report x = report +:+ line x) →
  ∀ xs report, foldl f report xs = report +:+ foldl f "" xs.
Proof.
  intros Hf xs. induction xs as [|x xs IH]; intros report; simpl.
  - by rewrite append_empty_r.
  - rewrite IH, (IH (f "" x)), !Hf. by rewrite append_assoc.
Qed.


(** ** The ledger *)

Lemma system_eta sys : {| _sensors := _sensors sys; _results := _results sys ++ [] |} = sys.
Proof. destruct sys. simpl. by rewrite app_nil_r. Qed.

Lemma in_world_bind_cases {A B} (m : Eff World A) (f : A → Eff State B) s :
  (∃ a w', (in_world m ≫= f) s = f a (s.1, w'))
  ∨ (∃ e w', (in_world m ≫= f) s = (Raise e, (s.1, w'))).
Proof.
  rewrite in_world_bind. destruct (m s.2) as [[a|e] w']; [left|right]; by eexists _, _.
Qed.

(** The step of a proof about the ledger: a computation in the world either
    returns, and the proof goes on, or raises, and the ledger is as it was. *)
Ltac ledger_step :=
  match goal with
  | |- context [(in_world ?m ≫= ?f) ?s] =>
      destruct (in_world_bind_cases m f s) as [(? & ? & ->)|(? & ? & ->)]
  end;
  [simpl|by (exists []; simpl; rewrite system_eta)].

Lemma _register_result_ledger chocolate defects result process sys w :
  ∃ rs,
    (_register_result chocolate defects result process (sys, w)).2.1
    = {| _sensors := _sensors sys; _results := _results sys ++ rs |}
    ∧ length rs
      = if returned (_register_result chocolate defects result process (sys, w)).1
        then 1 else 0.
Proof.
  unfold _register_result. do 4 ledger_step.
  eexists [_]. by split.
Qed.

Lemma inspect_chocolate_ledger chocolate process sys w :
  ∃ rs,
    (inspect_chocolate chocolate process (sys, w)).2.1
    = {| _sensors := _sensors sys; _results := _results sys ++ rs |}
    ∧ length rs
      = if returned (inspect_chocolate chocolate process (sys, w)).1 then 1 else 0.
Proof.
  unfold inspect_chocolate.
  rewrite (bind_Return self _ (sys, w) sys (sys, w) eq_refl). simpl.
  destruct (_sensors sys !! process) as [sensor|].
  2:{ exists []. simpl. by rewrite system_eta. }
  do 4 ledger_step.
  match goal with
  | |- context [(_register_result ?c ?d ?r ?p ≫= _) (sys, ?w')] =>
      destruct (_register_result_ledger c d r p sys w') as (rs & Hrs & Hlen);
      exists rs; unfold mbind, Eff_bind;
      destruct (_register_result c d r p (sys, w')) as [[[]|e] s']
  end; by split.
Qed.

Lemma generate_report_state s : (generate_report s).2 = s.
Proof. destruct s as [sys w]. by rewrite generate_report_run. Qed.

Lemma show_inspections_state s : (show_inspections s).2 = s.
Proof.
  destruct s as [sys w]. unfold show_inspections.
  rewrite (bind_Return self _ (sys, w) sys (sys, w) eq_refl).
  by case_bool_decide.
Qed.

Lemma in_world_system {A} (m : Eff World A) s : (in_world m s).2.1 = s.1.
Proof. unfold in_world. by destruct (m s.2). Qed.





(** The report after three inspections of which two approved. *)
Example report_of_three_inspections :
  (generate_report three_inspections).1
  = Return
      (LF +:+
       "        QUALITY CONTROL REPORT" +:+ LF +:+
       "        ======================" +:+ LF +:+
       "        Total inspections: 3" +:+ LF +:+
       "        Approved products: 2" +:+ LF +:+
       "        Rejected products: 1" +:+ LF +:+
       "        Approval rate: 66.67%" +:+ LF +:+
       "        " +:+ LF +:+
       "        Defect details:" +:+ LF +:+
       "          - air_bubbles: 1 occurrences" +:+ LF).
Proof. vm_compute. reflexivity. Qed.

(** The ledger of a new control system after the calls of
    [three_inspections] and one more inspection, for a process that has no
    sensor: three records. *)
Example three_records_in_ledger :
  run_calls [call_inspect_chocolate 0 "wrapping"; call_generate_report;
             call_show_inspections] three_inspections
  = (0, three_inspections)
  ∧ length (_results three_inspections.1) = 3.
Proof. vm_compute. by split. Qed.

(** * Further properties *)

(** ** Evaluation, again and after more defects *)

Lemma set_status_twice s1 s2 c : set_status s2 (set_status s1 c) = set_status s2 c.
Proof. done. Qed.

Lemma with_chocolates_twice h1 h2 w :
  with_chocolates h2 (with_chocolates h1 w) = with_chocolates h2 w.
Proof. done. Qed.

(** X1. [evaluate_quality] can be run again: with no defect added in
    between, the second call returns the status the first returned and
    leaves the world as the first left it. *)
Theorem evaluate_quality_idempotent w self c D :
  chocolates w !! self = Some c →
  lists w !! _defects c = Some D →
  ∃ s w',
    evaluate_quality self w = (Return s, w')
    ∧ evaluate_quality self w' = (Return s, w').
Proof.
  intros Hself HD.
  destruct (evaluate_quality_returns w self c D Hself HD) as (s & Hrun & _).
  set (w' := with_chocolates (<[self := set_status s c]> (chocolates w)) w) in *.
  exists s, w'. split; [done|].
  assert (chocolates w' !! self = Some (set_status s c)) as Hself'
    by (simpl; by rewrite lookup_insert_eq).
  destruct (evaluate_quality_returns w' self (set_status s c) D Hself' HD)
    as (s' & Hrun' & _).
  pose proof (evaluate_quality_same_defects w w' self c (set_status s c) D
                Hself HD Hself' HD eq_refl) as Hsame.
  rewrite Hrun, Hrun' in Hsame. simpl in Hsame. injection Hsame as <-.
  rewrite Hrun'. f_equal. unfold w'. simpl.
  by rewrite with_chocolates_twice, insert_insert_eq.
Qed.

Lemma evaluate_quality_idempotent_witness :
  ∃ s w',
    evaluate_quality 0
      (world_with (cls_PackagedChocolate "gift_box") "P-1" [DefectType.MISSING_PIECE])
    = (Return s, w')
    ∧ evaluate_quality 0 w' = (Return s, w').
Proof.
  apply (evaluate_quality_idempotent
           (world_with (cls_PackagedChocolate "gift_box") "P-1" [DefectType.MISSING_PIECE])
           0 (fresh_chocolate (cls_PackagedChocolate "gift_box") "P-1")
           [DefectType.MISSING_PIECE]); reflexivity.
Defined.

Lemma NoDup_added (D ds : list DefectType.t) : NoDup D → NoDup (added D ds).
Proof.
  unfold added. revert D. induction ds as [|d ds IH]; intros D HD; simpl; [done|].
  apply IH. case_bool_decide as Hd; [done|].
  apply NoDup_app. split; [done|]. split.
  - intros x Hx ->%list_elem_of_singleton. done.
  - apply NoDup_singleton.
Qed.

Lemma NoDup_DefectType_length (D : list DefectType.t) : NoDup D → (length D ≤ 6)%nat.
Proof.
  intros HD.
  change 6 with (length [DefectType.BUBBLES; DefectType.BREAKAGE;
                         DefectType.INCORRECT_SHAPE; DefectType.STAINS;
                         DefectType.MISSING_PIECE; DefectType.DAMAGED_PACKAGING]).
  apply submseteq_length, NoDup_submseteq; [done|].
  intros [] _; set_solver.
Qed.

(** X2. The defects of a chocolate stay distinct: when no defect is there
    twice before the loop [for defect in defects: chocolate.add_defect(defect)],
    none is there twice after it, whatever list the loop runs over and
    however often that list repeats a defect.  The chocolate then carries
    what it carried and what the list holds, and never more than the six
    kinds of defect there are. *)
Theorem defects_stay_distinct w self c D ds :
  chocolates w !! self = Some c →
  lists w !! _defects c = Some D →
  NoDup D →
  ∃ w' D',
    for_each ds (Chocolate.add_defect self) w = (Return tt, w')
    ∧ lists w' !! _defects c = Some D'
    ∧ NoDup D'
    ∧ (length D' ≤ 6)%nat
    ∧ (∀ x, x ∈ D' ↔ x ∈ D ∨ x ∈ ds).
Proof.
  intros Hself HD Hnodup. rewrite (add_defects_run ds _ _ _ _ Hself HD).
  eexists _, (added D ds). split; [done|]. simpl.
  pose proof (NoDup_added D ds Hnodup).
  repeat split; try done.
  - by rewrite lookup_insert_eq.
  - by apply NoDup_DefectType_length.
  - by apply elem_of_added.
  - by apply elem_of_added.
Qed.

Lemma defects_stay_distinct_witness :
  ∃ w' D',
    for_each [DefectType.BUBBLES; DefectType.STAINS; DefectType.BUBBLES]
             (Chocolate.add_defect 0)
             (world_with (cls_MoldedChocolate "heart") "M-1" [DefectType.STAINS])
    = (Return tt, w')
    ∧ lists w' !! _defects (fresh_chocolate (cls_MoldedChocolate "heart") "M-1")
      = Some D'
    ∧ NoDup D'
    ∧ (length D' ≤ 6)%nat
    ∧ (∀ x, x ∈ D' ↔
            x ∈ [DefectType.STAINS]
            ∨ x ∈ [DefectType.BUBBLES; DefectType.STAINS; DefectType.BUBBLES]).
Proof.
  apply (defects_stay_distinct
           (world_with (cls_MoldedChocolate "heart") "M-1" [DefectType.STAINS])
           0 (fresh_chocolate (cls_MoldedChocolate "heart") "M-1")
           [DefectType.STAINS]
           [DefectType.BUBBLES; DefectType.STAINS; DefectType.BUBBLES]);
    [reflexivity|reflexivity|].
  apply NoDup_singleton.
Defined.

(** The rule of every class rejects a list of defects that holds all the
    defects of a list it rejects. *)
Lemma evaluate_quality_rejected_mono w1 w2 self c1 c2 (D1 D2 : list DefectType.t) :
  chocolates w1 !! self = Some c1 → lists w1 !! _defects c1 = Some D1 →
  chocolates w2 !! self = Some c2 → lists w2 !! _defects c2 = Some D2 →
  __class__ c1 = __class__ c2 →
  (∀ x, x ∈ D1 → x ∈ D2) →
  (evaluate_quality self w1).1 = Return QualityStatus.REJECTED →
  (evaluate_quality self w2).1 = Return QualityStatus.REJECTED.
Proof.
  intros H1 HD1 H2 HD2 Hcls Hsub.
  rewrite (evaluate_quality_dispatch _ _ _ H1), (evaluate_quality_dispatch _ _ _ H2).
  rewrite <- Hcls. destruct (__class__ c1).
  - rewrite (Chocolate_evaluate_quality_run _ _ _ _ H1 HD1),
      (Chocolate_evaluate_quality_run _ _ _ _ H2 HD2). simpl.
    repeat case_bool_decide; try done. subst D2.
    destruct D1 as [|x D1]; [done|].
    specialize (Hsub x ltac:(left)). by apply elem_of_nil in Hsub.
  - rewrite (MoldedChocolate_evaluate_quality_run _ _ _ _ H1 HD1),
      (MoldedChocolate_evaluate_quality_run _ _ _ _ H2 HD2). simpl.
    destruct (_ || _) eqn:E1; [|done]. intros _.
    apply orb3_true in E1. rewrite !bool_decide_eq_true in E1.
    assert (bool_decide (DefectType.BUBBLES ∈ D2)
            || bool_decide (DefectType.BREAKAGE ∈ D2)
            || bool_decide (DefectType.INCORRECT_SHAPE ∈ D2) = true) as ->; [|done].
    apply orb3_true. rewrite !bool_decide_eq_true.
    destruct E1 as [?|[?|?]]; auto.
  - rewrite (PackagedChocolate_evaluate_quality_run _ _ _ _ H1 HD1),
      (PackagedChocolate_evaluate_quality_run _ _ _ _ H2 HD2). simpl.
    destruct (_ || _) eqn:E1; [|done]. intros _.
    apply orb3_true in E1. rewrite !bool_decide_eq_true in E1.
    assert (bool_decide (DefectType.BREAKAGE ∈ D2)
            || bool_decide (DefectType.DAMAGED_PACKAGING ∈ D2)
            || bool_decide (DefectType.MISSING_PIECE ∈ D2) = true) as ->; [|done].
    apply orb3_true. rewrite !bool_decide_eq_true.
    destruct E1 as [?|[?|?]]; auto.
Qed.

(** X3. A chocolate that [evaluate_quality] rejects is rejected for good:
    after [add_defect] of any defects, the evaluation still returns
    rejected.  No defect, of no class, makes up for another. *)
Theorem rejected_stays_rejected w self c D ds :
  chocolates w !! self = Some c →
  lists w !! _defects c = Some D →
  (evaluate_quality self w).1 = Return QualityStatus.REJECTED →
  ∃ w',
    for_each ds (Chocolate.add_defect self) w = (Return tt, w')
    ∧ (evaluate_quality self w').1 = Return QualityStatus.REJECTED.
Proof.
  intros Hself HD Hrej. rewrite (add_defects_run ds _ _ _ _ Hself HD).
  eexists. split; [done|].
  apply (evaluate_quality_rejected_mono w _ self c c D (added D ds)); try done.
  - simpl. by rewrite lookup_insert_eq.
  - intros x Hx. apply elem_of_added. by left.
Qed.

Lemma rejected_stays_rejected_witness :
  ∃ w',
    for_each [DefectType.STAINS] (Chocolate.add_defect 0)
             (world_with (cls_MoldedChocolate "heart") "M-1" [DefectType.BUBBLES])
    = (Return tt, w')
    ∧ (evaluate_quality 0 w').1 = Return QualityStatus.REJECTED.
Proof.
  apply (rejected_stays_rejected
           (world_with (cls_MoldedChocolate "heart") "M-1" [DefectType.BUBBLES])
           0 (fresh_chocolate (cls_MoldedChocolate "heart") "M-1")
           [DefectType.BUBBLES] [DefectType.STAINS]); reflexivity.
Defined.

(** ** New chocolates *)

(** X4. Every new chocolate gets a list of defects of its own: the
    constructor returns a reference that was not in use, to a chocolate that
    is pending and whose list is new and empty, and leaves every other
    chocolate and every other list as it was.  The list is the list of no
    chocolate that was there before, so a defect added to the new chocolate
    shows in no other. *)
Theorem new_chocolate_own_list cls batch_id production_date w :
  ∃ self l w',
    Chocolate.__init__ cls batch_id production_date w = (Return self, w')
    ∧ chocolates w !! self = None
    ∧ lists w !! l = None
    ∧ chocolates w' !! self
      = Some {| __class__ := cls; _batch_id := batch_id;
                _production_date := production_date;
                _defects := l; _quality_status := QualityStatus.PENDING |}
    ∧ lists w' !! l = Some []
    ∧ (∀ r, r ≠ self → chocolates w' !! r = chocolates w !! r)
    ∧ (∀ k, k ≠ l → lists w' !! k = lists w !! k)
    ∧ (∀ r c0, chocolates w !! r = Some c0 →
               is_Some (lists w !! _defects c0) → _defects c0 ≠ l)
    ∧ (∀ d, ∃ w'',
         Chocolate.add_defect self d w' = (Return tt, w'')
         ∧ lists w'' !! l = Some [d]
         ∧ (∀ k, k ≠ l → lists w'' !! k = lists w !! k)).
Proof.
  unfold Chocolate.__init__.
  destruct (new_list_run w []) as [Hnew Hfresh].
  set (l := fresh (dom (lists w))) in *.
  rewrite (bind_Return _ _ _ _ _ Hnew).
  set (w1 := with_lists (<[l := []]> (lists w)) w).
  set (self := fresh (dom (chocolates w))).
  set (c := {| __class__ := cls; _batch_id := batch_id;
               _production_date := production_date;
               _defects := l; _quality_status := QualityStatus.PENDING |}).
  assert (chocolates w !! self = None) as Hself by apply not_elem_of_dom, is_fresh.
  exists self, l, (with_chocolates (<[self := c]> (chocolates w1)) w1).
  assert (chocolates (with_chocolates (<[self := c]> (chocolates w1)) w1) !! self = Some c)
    as Hc by (simpl; by rewrite lookup_insert_eq).
  assert (lists (with_chocolates (<[self := c]> (chocolates w1)) w1) !! _defects c = Some [])
    as Hl by (simpl; by rewrite lookup_insert_eq).
  repeat split; try done.
  - intros r Hr. simpl. by rewrite lookup_insert_ne.
  - intros k Hk. simpl. by rewrite lookup_insert_ne.
  - intros r c0 _ [D HD] E. rewrite E in HD. congruence.
  - intros d. rewrite (add_defect_run _ _ _ _ d Hc Hl).
    rewrite bool_decide_eq_false_2 by apply not_elem_of_nil.
    eexists. split; [done|]. simpl. split.
    + by rewrite lookup_insert_eq.
    + intros k Hk. by rewrite !lookup_insert_ne.
Qed.

(** ** Sensors and the registry *)

Lemma bind_assoc {S A B C} (m : Eff S A) (f : A → Eff S B) (g : B → Eff S C) s :
  ((m ≫= f) ≫= g) s = (m ≫= (λ a, f a ≫= g)) s.
Proof. unfold mbind, Eff_bind. by destruct (m s) as [[a|e] s']. Qed.

(** An inspection looks at the registry for its own process only, and at
    the ledger not at all. *)
Lemma inspect_chocolate_registry chocolate process sys1 sys2 w :
  _sensors sys1 !! process = _sensors sys2 !! process →
  (inspect_chocolate chocolate process (sys1, w)).1
  = (inspect_chocolate chocolate process (sys2, w)).1
  ∧ (inspect_chocolate chocolate process (sys1, w)).2.2
    = (inspect_chocolate chocolate process (sys2, w)).2.2
  ∧ ∃ rs,
      _results (inspect_chocolate chocolate process (sys1, w)).2.1 = _results sys1 ++ rs
      ∧ _results (inspect_chocolate chocolate process (sys2, w)).2.1 = _results sys2 ++ rs.
Proof.
  intros Hlookup. unfold inspect_chocolate.
  rewrite (bind_Return self _ (sys1, w) sys1 (sys1, w) eq_refl).
  rewrite (bind_Return self _ (sys2, w) sys2 (sys2, w) eq_refl).
  simpl. rewrite <- Hlookup.
  destruct (_sensors sys1 !! process) as [sensor|].
  2:{ simpl. repeat split. exists []. by rewrite !app_nil_r. }
  rewrite !in_world_bind. simpl.
  destruct (detect_defects sensor chocolate w) as [[defects|e] w1].
  2:{ simpl. repeat split. exists []. by rewrite !app_nil_r. }
  rewrite !in_world_bind. simpl.
  destruct (read_list defects w1) as [[ds|e] w2].
  2:{ simpl. repeat split. exists []. by rewrite !app_nil_r. }
  rewrite !in_world_bind. simpl.
  destruct (for_each ds (Chocolate.add_defect chocolate) w2) as [[[]|e] w3].
  2:{ simpl. repeat split. exists []. by rewrite !app_nil_r. }
  rewrite !in_world_bind. simpl.
  destruct (evaluate_quality chocolate w3) as [[result|e] w4].
  2:{ simpl. repeat split. exists []. by rewrite !app_nil_r. }
  unfold _register_result. rewrite !bind_assoc.
  rewrite !in_world_bind. simpl.
  destruct (Chocolate.batch_id chocolate w4) as [[batch_id|e] w5].
  2:{ simpl. repeat split. exists []. by rewrite !app_nil_r. }
  rewrite !bind_assoc, !in_world_bind. simpl.
  rewrite !bind_assoc, !in_world_bind. simpl.
  match goal with
  | |- context [read_list defects ?w6] =>
      destruct (read_list defects w6) as [[ds'|e] w7]
  end.
  2:{ simpl. repeat split. exists []. by rewrite !app_nil_r. }
  rewrite !bind_assoc, !in_world_bind. simpl.
  destruct (read_chocolate chocolate w7) as [[c|e] w8].
  2:{ simpl. repeat split. exists []. by rewrite !app_nil_r. }
  simpl. repeat split. by eexists [_].
Qed.

(** X5. [register_sensor] always returns and changes the registry only, at
    its own process only.  Registering a process again replaces its sensor:
    two registrations are worth the last one.  Registering another process
    leaves an inspection what it is: the same outcome, the same world and
    the same new record. *)
Theorem register_sensor_overwrites process sensor1 sensor2 other chocolate sys w :
  (register_sensor process sensor1;; register_sensor process sensor2) (sys, w)
  = register_sensor process sensor2 (sys, w)
  ∧ (∃ sys',
       register_sensor process sensor2 (sys, w) = (Return tt, (sys', w))
       ∧ _sensors sys' !! process = Some sensor2
       ∧ (∀ p, p ≠ process → _sensors sys' !! p = _sensors sys !! p)
       ∧ _results sys' = _results sys)
  ∧ (other ≠ process →
     let direct := inspect_chocolate chocolate process (sys, w) in
     let after :=
       (register_sensor other sensor1;; inspect_chocolate chocolate process) (sys, w) in
     after.1 = direct.1
     ∧ after.2.2 = direct.2.2
     ∧ _results after.2.1 = _results direct.2.1).
Proof.
  split; [|split].
  - unfold mbind, Eff_bind, register_sensor. simpl. by rewrite insert_insert_eq.
  - eexists. split; [reflexivity|]. simpl. split; [by rewrite lookup_insert_eq|].
    split; [|done]. intros p Hp. by rewrite lookup_insert_ne.
  - intros Hother direct after. unfold after, direct, mbind, Eff_bind, register_sensor.
    simpl.
    match goal with
    | |- context [inspect_chocolate _ _ (?sys1, _)] =>
        destruct (inspect_chocolate_registry chocolate process sys1 sys w)
          as (Ho & Hw & rs & Hr1 & Hr2)
    end.
    { simpl. by rewrite lookup_insert_ne. }
    repeat split; try done. by rewrite Hr1, Hr2.
Qed.

Lemma register_sensor_overwrites_witness :
  let direct := inspect_chocolate 0 "molding"
                  (bubbles_system, world_with (cls_MoldedChocolate "heart") "M-1" []) in
  let after :=
    (register_sensor "packaging" VisualSensor.__init__;;
     inspect_chocolate 0 "molding")
      (bubbles_system, world_with (cls_MoldedChocolate "heart") "M-1" []) in
  after.1 = direct.1
  ∧ after.2.2 = direct.2.2
  ∧ _results after.2.1 = _results direct.2.1.
Proof.
  apply (register_sensor_overwrites "molding" VisualSensor.__init__ VisualSensor.__init__
           "packaging" 0 bubbles_system
           (world_with (cls_MoldedChocolate "heart") "M-1" [])).
  discriminate.
Defined.

(** X7. An exception of the sensor is not caught: [inspect_chocolate]
    raises it as it is, adds nothing to the ledger, and leaves the world as
    the sensor left it, with no defect added and no status set. *)
Theorem inspect_chocolate_sensor_raises chocolate process sys w sensor e w1 :
  _sensors sys !! process = Some sensor →
  detect_defects sensor chocolate w = (Raise e, w1) →
  inspect_chocolate chocolate process (sys, w) = (Raise e, (sys, w1)).
Proof.
  intros Hsensor Hraise. unfold inspect_chocolate.
  rewrite (bind_Return self _ (sys, w) sys (sys, w) eq_refl). simpl. rewrite Hsensor.
  rewrite in_world_bind. simpl. by rewrite Hraise.
Qed.

Lemma inspect_chocolate_sensor_raises_witness :
  inspect_chocolate 0 "molding"
    ((register_sensor "molding" (failing_sensor IndexError) (__init__, empty_world)).2.1,
     world_with (cls_MoldedChocolate "heart") "M-1" [])
  = (Raise IndexError,
     ((register_sensor "molding" (failing_sensor IndexError) (__init__, empty_world)).2.1,
      world_with (cls_MoldedChocolate "heart") "M-1" [])).
Proof.
  apply (inspect_chocolate_sensor_raises 0 "molding" _ _ (failing_sensor IndexError));
    reflexivity.
Defined.

(** X8. What an inspection that returns does to the world the sensor left:
    the chocolate keeps its class, batch id, date and list and gets the
    returned status; its list gets the defects of the sensor's list that it
    did not hold; no other chocolate and no other list changes; the clock is
    read once and the random generator not at all.  The status is up to
    date: evaluating the chocolate right away returns it again. *)
Theorem inspect_chocolate_product chocolate process sys w st sys' w' :
  inspect_chocolate chocolate process (sys, w) = (Return st, (sys', w')) →
  ∃ sensor defects w1 ds c D,
    _sensors sys !! process = Some sensor
    ∧ detect_defects sensor chocolate w = (Return defects, w1)
    ∧ lists w1 !! defects = Some ds
    ∧ chocolates w1 !! chocolate = Some c
    ∧ lists w1 !! _defects c = Some D
    ∧ chocolates w' !! chocolate = Some (set_status st c)
    ∧ lists w' !! _defects c = Some (added D ds)
    ∧ (∀ x, x ∈ added D ds ↔ x ∈ D ∨ x ∈ ds)
    ∧ (∀ r, r ≠ chocolate → chocolates w' !! r = chocolates w1 !! r)
    ∧ (∀ k, k ≠ _defects c → lists w' !! k = lists w1 !! k)
    ∧ random_drawn w' = random_drawn w1
    ∧ clock_read w' = S (clock_read w1)
    ∧ (evaluate_quality chocolate w').1 = Return st.
Proof.
  intros H.
  destruct (inspect_chocolate_Return_inv _ _ _ _ _ _ H)
    as (sensor & defects & w1 & ds & c & D & Hsensor & Hdetect & Hds & Hc & HD).
  destruct (inspect_chocolate_run sys w chocolate process _ _ _ _ _ _
              Hsensor Hdetect Hds Hc HD) as (st' & _ & Heval & Hrun).
  rewrite Hrun in H. injection H as -> <- <-.
  exists sensor, defects, w1, ds, c, D. simpl.
  repeat split; try done.
  - by rewrite lookup_insert_eq.
  - by rewrite lookup_insert_eq.
  - by apply elem_of_added.
  - by apply elem_of_added.
  - intros r Hr. by rewrite lookup_insert_ne.
  - intros k Hk. by rewrite lookup_insert_ne.
  - rewrite <- Heval.
    apply (evaluate_quality_same_defects _ _ chocolate (set_status st c) c (added D ds));
      simpl; try done; by rewrite lookup_insert_eq.
Qed.

Lemma inspect_chocolate_product_witness :
  let w := world_with (cls_MoldedChocolate "heart") "M-1" [DefectType.STAINS] in
  let after := (inspect_chocolate 0 "molding" (bubbles_system, w)).2 in
  ∃ sensor defects w1 ds c D,
    _sensors bubbles_system !! "molding" = Some sensor
    ∧ detect_defects sensor 0 w = (Return defects, w1)
    ∧ lists w1 !! defects = Some ds
    ∧ chocolates w1 !! 0 = Some c
    ∧ lists w1 !! _defects c = Some D
    ∧ chocolates after.2 !! 0 = Some (set_status QualityStatus.REJECTED c)
    ∧ lists after.2 !! _defects c = Some (added D ds)
    ∧ (∀ x, x ∈ added D ds ↔ x ∈ D ∨ x ∈ ds)
    ∧ (∀ r, r ≠ 0 → chocolates after.2 !! r = chocolates w1 !! r)
    ∧ (∀ k, k ≠ _defects c → lists after.2 !! k = lists w1 !! k)
    ∧ random_drawn after.2 = random_drawn w1
    ∧ clock_read after.2 = S (clock_read w1)
    ∧ (evaluate_quality 0 after.2).1 = Return QualityStatus.REJECTED.
Proof.
  intros w after.
  apply (inspect_chocolate_product 0 "molding" bubbles_system w
           QualityStatus.REJECTED after.1 after.2).
  reflexivity.
Defined.

(** ** The visual sensor *)

Lemma drawn_drawn n m w : drawn n (drawn m w) = drawn (n + m) w.
Proof. unfold drawn. simpl. f_equal. lia. Qed.

Lemma drawn_0 w : drawn 0 w = w.
Proof. by destruct w. Qed.

Lemma randint_run a b w :
  randint a b w
  = (Return (a + random_source w (random_drawn w) mod (b - a + 1)), drawn 1 w).
Proof. done. Qed.

(** [random.choices] of a population that is not empty returns [k] of its
    elements and draws [k] values. *)
Lemma choices_run {A} (population : list A) k : ∀ w,
  population ≠ [] →
  ∃ xs, choices population k w = (Return xs, drawn k w)
        ∧ length xs = k
        ∧ ∀ x, x ∈ xs → x ∈ population.
Proof.
  induction k as [|k IH]; intros w Hne.
  - exists []. simpl. unfold mret, Eff_ret. rewrite drawn_0.
    split; [done|]. split; [done|]. by intros x ?%elem_of_nil.
  - simpl. unfold mbind at 1, Eff_bind at 1. simpl.
    assert (random_source w (random_drawn w) mod length population < length population)%nat
      as Hlt by (apply Nat.mod_upper_bound; by destruct population).
    destruct (lookup_lt_is_Some_2 _ _ Hlt) as [x Hx]. rewrite Hx.
    destruct (IH (drawn 1 w) Hne) as (xs & Hrun & Hlen & Hin).
    change {| lists := lists w; chocolates := chocolates w;
              random_source := random_source w; random_drawn := S (random_drawn w);
              clock_source := clock_source w; clock_read := clock_read w |}
      with (drawn 1 w).
    rewrite (bind_Return _ _ _ _ _ Hrun). unfold mret, Eff_ret.
    exists (x :: xs). rewrite drawn_drawn, Nat.add_1_r.
    split; [done|]. split; [simpl; by rewrite Hlen|].
    intros y [->|Hy]%elem_of_cons; [|by apply Hin].
    by apply list_elem_of_lookup_2 in Hx.
Qed.

(** [random.choices(population, k=random.randint(0, n))] *)
Lemma analyze_run (population : list DefectType.t) n w :
  population ≠ [] →
  ∃ found,
    (k ← randint 0 n; choices population k) w
    = (Return found, drawn (1 + length found) w)
    ∧ length found = random_source w (random_drawn w) mod (n + 1)
    ∧ (length found ≤ n)%nat
    ∧ ∀ d, d ∈ found → d ∈ population.
Proof.
  intros Hne. rewrite (bind_Return _ _ _ _ _ (randint_run 0 n w)).
  rewrite Nat.sub_0_r. simpl.
  destruct (choices_run population (random_source w (random_drawn w) mod (n + 1))
              (drawn 1 w) Hne) as (found & Hrun & Hlen & Hin).
  exists found. rewrite Hrun, drawn_drawn, Hlen, (Nat.add_comm _ 1).
  split; [done|]. split; [done|]. split; [|done].
  pose proof (Nat.mod_upper_bound (random_source w (random_drawn w)) (n + 1)). lia.
Qed.

(** What the visual sensor does for a chocolate of each class, with the
    candidates of that class and the most it draws of them. *)
Lemma VisualSensor_detect_defects_run w chocolate c :
  chocolates w !! chocolate = Some c →
  let l := fresh (dom (lists w)) in
  ∃ found,
    VisualSensor.detect_defects chocolate w
    = (Return l,
       with_lists (<[l := found]> (lists w))
         (drawn (match __class__ c with
                 | cls_Chocolate => 0
                 | _ => 1 + length found
                 end) w))
    ∧ match __class__ c with
      | cls_Chocolate => found = []
      | cls_MoldedChocolate _ =>
          (length found ≤ 2)%nat
          ∧ length found = random_source w (random_drawn w) mod 3
          ∧ ∀ d, d ∈ found →
                 d ∈ [DefectType.BUBBLES; DefectType.BREAKAGE;
                      DefectType.INCORRECT_SHAPE; DefectType.STAINS]
      | cls_PackagedChocolate _ =>
          (length found ≤ 1)%nat
          ∧ length found = random_source w (random_drawn w) mod 2
          ∧ ∀ d, d ∈ found →
                 d ∈ [DefectType.BREAKAGE; DefectType.DAMAGED_PACKAGING;
                      DefectType.MISSING_PIECE]
      end.
Proof.
  intros Hc l. unfold VisualSensor.detect_defects.
  destruct (new_list_run w []) as [Hnew _]. fold l in Hnew.
  rewrite (bind_Return _ _ _ _ _ Hnew).
  set (w1 := with_lists (<[l := []]> (lists w)) w).
  rewrite (bind_Return _ _ _ c _ (read_chocolate_Return w1 _ _ Hc)).
  destruct (__class__ c) as [|mold_type|packaging_type].
  - exists []. split; [|done]. by rewrite drawn_0.
  - destruct (analyze_run
                [DefectType.BUBBLES; DefectType.BREAKAGE;
                 DefectType.INCORRECT_SHAPE; DefectType.STAINS] 2 w1 ltac:(done))
      as (found & Hrun & Hlen & Hle & Hin).
    exists found. split; [|done].
    unfold VisualSensor._analyze_molding. cbv zeta.
    rewrite bind_assoc, (bind_Return _ _ _ _ _ Hrun).
    assert (lists (drawn (1 + length found) w1) !! l = Some []) as Hl
      by (simpl; by rewrite lookup_insert_eq).
    unfold list_extend.
    rewrite bind_assoc, (bind_Return _ _ _ _ _ (read_list_Return _ _ _ Hl)).
    rewrite (bind_Return _ _ _ _ _
               (write_list_Return _ _ found (mk_is_Some _ _ Hl))).
    unfold mret, Eff_ret. simpl. by rewrite insert_insert_eq.
  - destruct (analyze_run
                [DefectType.BREAKAGE; DefectType.DAMAGED_PACKAGING;
                 DefectType.MISSING_PIECE] 1 w1 ltac:(done))
      as (found & Hrun & Hlen & Hle & Hin).
    exists found. split; [|done].
    unfold VisualSensor._analyze_packaging. cbv zeta.
    rewrite bind_assoc, (bind_Return _ _ _ _ _ Hrun).
    assert (lists (drawn (1 + length found) w1) !! l = Some []) as Hl
      by (simpl; by rewrite lookup_insert_eq).
    unfold list_extend.
    rewrite bind_assoc, (bind_Return _ _ _ _ _ (read_list_Return _ _ _ Hl)).
    rewrite (bind_Return _ _ _ _ _
               (write_list_Return _ _ found (mk_is_Some _ _ Hl))).
    unfold mret, Eff_ret. simpl. by rewrite insert_insert_eq.
Qed.

(** X9. For a molded chocolate the visual sensor returns a new list of at
    most two defects, each of them bubbles, breakage, incorrect shape or
    stains, as many as the first random value says modulo three.  It does
    not raise, changes no chocolate and no list that was there, draws one
    random value and one more for each defect, and does not read the
    clock. *)
Theorem VisualSensor_molded w chocolate c mold_type :
  chocolates w !! chocolate = Some c →
  __class__ c = cls_MoldedChocolate mold_type →
  ∃ l found w',
    VisualSensor.detect_defects chocolate w = (Return l, w')
    ∧ lists w !! l = None
    ∧ lists w' !! l = Some found
    ∧ (length found ≤ 2)%nat
    ∧ length found = random_source w (random_drawn w) mod 3
    ∧ (∀ d, d ∈ found →
            d ∈ [DefectType.BUBBLES; DefectType.BREAKAGE;
                 DefectType.INCORRECT_SHAPE; DefectType.STAINS])
    ∧ chocolates w' = chocolates w
    ∧ (∀ k, k ≠ l → lists w' !! k = lists w !! k)
    ∧ random_drawn w' = 1 + length found + random_drawn w
    ∧ clock_read w' = clock_read w.
Proof.
  intros Hc Hcls.
  destruct (VisualSensor_detect_defects_run w chocolate c Hc) as (found & Hrun & Hfound).
  destruct (new_list_run w []) as [_ Hfresh].
  rewrite Hcls in Hrun, Hfound. destruct Hfound as (Hle & Hlen & Hin).
  eexists _, found, _. split; [exact Hrun|]. simpl.
  split; [done|]. split; [by rewrite lookup_insert_eq|].
  do 4 (split; [done|]). split; [|done].
  intros k Hk. by rewrite lookup_insert_ne.
Qed.

Lemma VisualSensor_molded_witness :
  let w := world_with (cls_MoldedChocolate "heart") "M-1" [] in
  ∃ l found w',
    VisualSensor.detect_defects 0 w = (Return l, w')
    ∧ lists w !! l = None
    ∧ lists w' !! l = Some found
    ∧ (length found ≤ 2)%nat
    ∧ length found = random_source w (random_drawn w) mod 3
    ∧ (∀ d, d ∈ found →
            d ∈ [DefectType.BUBBLES; DefectType.BREAKAGE;
                 DefectType.INCORRECT_SHAPE; DefectType.STAINS])
    ∧ chocolates w' = chocolates w
    ∧ (∀ k, k ≠ l → lists w' !! k = lists w !! k)
    ∧ random_drawn w' = 1 + length found + random_drawn w
    ∧ clock_read w' = clock_read w.
Proof.
  intros w.
  apply (VisualSensor_molded w 0 (fresh_chocolate (cls_MoldedChocolate "heart") "M-1")
           "heart"); reflexivity.
Defined.

(** X10. For a packaged chocolate the visual sensor returns a new list of
    at most one defect, which is breakage, damaged packaging or a missing
    piece, and is there when the first random value is odd.  It does not
    raise, changes no chocolate and no list that was there, draws one
    random value and one more for the defect, and does not read the
    clock. *)
Theorem VisualSensor_packaged w chocolate c packaging_type :
  chocolates w !! chocolate = Some c →
  __class__ c = cls_PackagedChocolate packaging_type →
  ∃ l found w',
    VisualSensor.detect_defects chocolate w = (Return l, w')
    ∧ lists w !! l = None
    ∧ lists w' !! l = Some found
    ∧ (length found ≤ 1)%nat
    ∧ length found = random_source w (random_drawn w) mod 2
    ∧ (∀ d, d ∈ found →
            d ∈ [DefectType.BREAKAGE; DefectType.DAMAGED_PACKAGING;
                 DefectType.MISSING_PIECE])
    ∧ chocolates w' = chocolates w
    ∧ (∀ k, k ≠ l → lists w' !! k = lists w !! k)
    ∧ random_drawn w' = 1 + length found + random_drawn w
    ∧ clock_read w' = clock_read w.
Proof.
  intros Hc Hcls.
  destruct (VisualSensor_detect_defects_run w chocolate c Hc) as (found & Hrun & Hfound).
  destruct (new_list_run w []) as [_ Hfresh].
  rewrite Hcls in Hrun, Hfound. destruct Hfound as (Hle & Hlen & Hin).
  eexists _, found, _. split; [exact Hrun|]. simpl.
  split; [done|]. split; [by rewrite lookup_insert_eq|].
  do 4 (split; [done|]). split; [|done].
  intros k Hk. by rewrite lookup_insert_ne.
Qed.

Lemma VisualSensor_packaged_witness :
  let w := world_with (cls_PackagedChocolate "gift_box") "P-1" [] in
  ∃ l found w',
    VisualSensor.detect_defects 0 w = (Return l, w')
    ∧ lists w !! l = None
    ∧ lists w' !! l = Some found
    ∧ (length found ≤ 1)%nat
    ∧ length found = random_source w (random_drawn w) mod 2
    ∧ (∀ d, d ∈ found →
            d ∈ [DefectType.BREAKAGE; DefectType.DAMAGED_PACKAGING;
                 DefectType.MISSING_PIECE])
    ∧ chocolates w' = chocolates w
    ∧ (∀ k, k ≠ l → lists w' !! k = lists w !! k)
    ∧ random_drawn w' = 1 + length found + random_drawn w
    ∧ clock_read w' = clock_read w.
Proof.
  intros w.
  apply (VisualSensor_packaged w 0
           (fresh_chocolate (cls_PackagedChocolate "gift_box") "P-1") "gift_box");
    reflexivity.
Defined.

(** An inspection through the visual sensor, for a chocolate that is in the
    store with its list: it returns, with one new record for what the
    sensor found, and the status is what the rule of the class gives for
    the defects the chocolate carried and those found. *)
Lemma inspect_chocolate_visual_run sys w chocolate process c D :
  chocolates w !! chocolate = Some c →
  lists w !! _defects c = Some D →
  _sensors sys !! process = Some VisualSensor.__init__ →
  ∃ found st w' date,
    inspect_chocolate chocolate process (sys, w)
    = (Return st,
       ({| _sensors := _sensors sys;
           _results := _results sys ++
             [{| record.batch_id := _batch_id c;
                 record.date := date;
                 record.process := process;
                 record.defects := DefectType.value <$> found;
                 record.result := QualityStatus.value st;
                 record.chocolate_type := __name__ (__class__ c) |}] |}, w'))
    ∧ chocolates w' = <[chocolate := set_status st c]> (chocolates w)
    ∧ (∀ W, chocolates W !! chocolate = Some c →
            lists W !! _defects c = Some (added D found) →
            (evaluate_quality chocolate W).1 = Return st)
    ∧ match __class__ c with
      | cls_Chocolate => found = []
      | cls_MoldedChocolate _ =>
          (length found ≤ 2)%nat
          ∧ ∀ d, d ∈ found →
                 d ∈ [DefectType.BUBBLES; DefectType.BREAKAGE;
                      DefectType.INCORRECT_SHAPE; DefectType.STAINS]
      | cls_PackagedChocolate _ =>
          (length found ≤ 1)%nat
          ∧ ∀ d, d ∈ found →
                 d ∈ [DefectType.BREAKAGE; DefectType.DAMAGED_PACKAGING;
                      DefectType.MISSING_PIECE]
      end.
Proof.
  intros Hc HD Hsensor.
  destruct (VisualSensor_detect_defects_run w chocolate c Hc) as (found & Hdetect & Hfound).
  destruct (new_list_run w []) as [_ Hfresh].
  set (l := fresh (dom (lists w))) in *.
  assert (l ≠ _defects c) as Hne by (intros E; rewrite E in Hfresh; congruence).
  match type of Hdetect with _ = (_, ?w1') => set (w1 := w1') in * end.
  assert (lists w1 !! l = Some found) as Hl by (simpl; by rewrite lookup_insert_eq).
  assert (lists w1 !! _defects c = Some D) as HD1 by (simpl; by rewrite lookup_insert_ne).
  destruct (inspect_chocolate_run sys w chocolate process VisualSensor.__init__
              l w1 found c D Hsensor Hdetect Hl Hc HD1) as (st & _ & Heval & Hrun).
  exists found, st. eexists _, _. split; [exact Hrun|]. split; [done|]. split.
  - intros W HcW HDW. rewrite <- Heval.
    apply (evaluate_quality_same_defects _ _ chocolate c c (added D found)); try done.
    simpl. by rewrite lookup_insert_eq.
  - destruct (__class__ c); [done|tauto|tauto].
Qed.

(** X11. At packaging, whatever the visual sensor finds rejects the
    chocolate: an inspection of a packaged chocolate through the visual
    sensor returns, adds one record with the defects found, of which there
    is at most one, and approves exactly when nothing was found and the
    chocolate carried none of breakage, damaged packaging and missing
    piece. *)
Theorem inspect_packaged_visual sys w chocolate process c packaging_type D :
  chocolates w !! chocolate = Some c →
  __class__ c = cls_PackagedChocolate packaging_type →
  lists w !! _defects c = Some D →
  _sensors sys !! process = Some VisualSensor.__init__ →
  ∃ st sys' w' found r,
    inspect_chocolate chocolate process (sys, w) = (Return st, (sys', w'))
    ∧ _results sys' = _results sys ++ [r]
    ∧ record.defects r = DefectType.value <$> found
    ∧ record.result r = QualityStatus.value st
    ∧ (length found ≤ 1)%nat
    ∧ (st = QualityStatus.APPROVED ↔
         found = []
         ∧ ¬ (DefectType.BREAKAGE ∈ D ∨ DefectType.DAMAGED_PACKAGING ∈ D
              ∨ DefectType.MISSING_PIECE ∈ D))
    ∧ (st = QualityStatus.REJECTED ↔
         found ≠ []
         ∨ DefectType.BREAKAGE ∈ D ∨ DefectType.DAMAGED_PACKAGING ∈ D
         ∨ DefectType.MISSING_PIECE ∈ D).
Proof.
  intros Hc Hcls HD Hsensor.
  destruct (inspect_chocolate_visual_run sys w chocolate process c D Hc HD Hsensor)
    as (found & st & w' & date & Hrun & _ & Heval & Hfound).
  rewrite Hcls in Hfound. destruct Hfound as [Hle Hin].
  eexists st, _, w', found, _. split; [exact Hrun|]. simpl.
  do 4 (split; [done|]).
  set (W := with_lists (<[_defects c := added D found]> (lists w)) w).
  assert (lists W !! _defects c = Some (added D found)) as HDW
    by (simpl; by rewrite lookup_insert_eq).
  specialize (Heval W Hc HDW).
  rewrite (evaluate_quality_dispatch W _ c Hc), Hcls,
    (PackagedChocolate_evaluate_quality_run W _ c _ Hc HDW) in Heval.
  simpl in Heval. injection Heval as <-.
  destruct (_ || _) eqn:E.
  - apply orb3_true in E. rewrite !bool_decide_eq_true, !elem_of_added in E.
    assert (found ≠ [] ∨ DefectType.BREAKAGE ∈ D ∨ DefectType.DAMAGED_PACKAGING ∈ D
            ∨ DefectType.MISSING_PIECE ∈ D) as Hor.
    { destruct (decide (found = [])) as [->|]; [|tauto]. right.
      rewrite !elem_of_nil in E. tauto. }
    split; split; try done. intros [-> Hno]. tauto.
  - apply orb3_false in E. rewrite !bool_decide_eq_false, !elem_of_added in E.
    assert (found = []) as ->.
    { destruct found as [|d found]; [done|]. exfalso.
      specialize (Hin d ltac:(left)).
      assert (d ∈ d :: found) as Hd by left.
      set_unfold in Hin. destruct Hin as [->|[->|[->|[]]]]; tauto. }
    split; split; try done; [|intros [?|?]; [done|tauto]].
    intros _. split; [done|]. rewrite !elem_of_nil in E. tauto.
Qed.

Lemma inspect_packaged_visual_witness :
  let w := world_with (cls_PackagedChocolate "gift_box") "P-1" [DefectType.STAINS] in
  ∃ st sys' w' found r,
    inspect_chocolate 0 "packaging" (visual_system, w) = (Return st, (sys', w'))
    ∧ _results sys' = _results visual_system ++ [r]
    ∧ record.defects r = DefectType.value <$> found
    ∧ record.result r = QualityStatus.value st
    ∧ (length found ≤ 1)%nat
    ∧ (st = QualityStatus.APPROVED ↔
         found = []
         ∧ ¬ (DefectType.BREAKAGE ∈ [DefectType.STAINS]
              ∨ DefectType.DAMAGED_PACKAGING ∈ [DefectType.STAINS]
              ∨ DefectType.MISSING_PIECE ∈ [DefectType.STAINS]))
    ∧ (st = QualityStatus.REJECTED ↔
         found ≠ []
         ∨ DefectType.BREAKAGE ∈ [DefectType.STAINS]
         ∨ DefectType.DAMAGED_PACKAGING ∈ [DefectType.STAINS]
         ∨ DefectType.MISSING_PIECE ∈ [DefectType.STAINS]).
Proof.
  intros w.
  apply (inspect_packaged_visual visual_system w 0 "packaging"
           (fresh_chocolate (cls_PackagedChocolate "gift_box") "P-1") "gift_box"
           [DefectType.STAINS]); reflexivity.
Defined.

(** X12. At molding, stains are the one defect the visual sensor can find
    that does not reject: an inspection of a molded chocolate through the
    visual sensor returns, adds one record with the defects found, of which
    there are at most two, and approves exactly when it found nothing but
    stains and the chocolate carried none of bubbles, breakage and incorrect
    shape. *)
Theorem inspect_molded_visual sys w chocolate process c mold_type D :
  chocolates w !! chocolate = Some c →
  __class__ c = cls_MoldedChocolate mold_type →
  lists w !! _defects c = Some D →
  _sensors sys !! process = Some VisualSensor.__init__ →
  ∃ st sys' w' found r,
    inspect_chocolate chocolate process (sys, w) = (Return st, (sys', w'))
    ∧ _results sys' = _results sys ++ [r]
    ∧ record.defects r = DefectType.value <$> found
    ∧ record.result r = QualityStatus.value st
    ∧ (length found ≤ 2)%nat
    ∧ (st = QualityStatus.APPROVED ↔
         (∀ d, d ∈ found → d = DefectType.STAINS)
         ∧ ¬ (DefectType.BUBBLES ∈ D ∨ DefectType.BREAKAGE ∈ D
              ∨ DefectType.INCORRECT_SHAPE ∈ D))
    ∧ (st = QualityStatus.APPROVED ∨ st = QualityStatus.REJECTED).
Proof.
  intros Hc Hcls HD Hsensor.
  destruct (inspect_chocolate_visual_run sys w chocolate process c D Hc HD Hsensor)
    as (found & st & w' & date & Hrun & _ & Heval & Hfound).
  rewrite Hcls in Hfound. destruct Hfound as [Hle Hin].
  eexists st, _, w', found, _. split; [exact Hrun|]. simpl.
  do 4 (split; [done|]).
  set (W := with_lists (<[_defects c := added D found]> (lists w)) w).
  assert (lists W !! _defects c = Some (added D found)) as HDW
    by (simpl; by rewrite lookup_insert_eq).
  specialize (Heval W Hc HDW).
  rewrite (evaluate_quality_dispatch W _ c Hc), Hcls,
    (MoldedChocolate_evaluate_quality_run W _ c _ Hc HDW) in Heval.
  simpl in Heval. injection Heval as <-.
  destruct (_ || _) eqn:E.
  - apply orb3_true in E. rewrite !bool_decide_eq_true, !elem_of_added in E.
    split; [|by right]. split; [done|]. intros [Hstains Hno]. exfalso.
    destruct E as [[?|E]|[[?|E]|[?|E]]]; try tauto; by apply Hstains in E.
  - apply orb3_false in E. rewrite !bool_decide_eq_false, !elem_of_added in E.
    split; [|by left]. split; [|done]. intros _. split; [|tauto].
    intros d Hd. specialize (Hin d Hd).
    set_unfold in Hin. destruct Hin as [->|[->|[->|[->|[]]]]]; tauto.
Qed.

Lemma inspect_molded_visual_witness :
  let w := world_with (cls_MoldedChocolate "heart") "M-1" [DefectType.STAINS] in
  ∃ st sys' w' found r,
    inspect_chocolate 0 "molding" (visual_system, w) = (Return st, (sys', w'))
    ∧ _results sys' = _results visual_system ++ [r]
    ∧ record.defects r = DefectType.value <$> found
    ∧ record.result r = QualityStatus.value st
    ∧ (length found ≤ 2)%nat
    ∧ (st = QualityStatus.APPROVED ↔
         (∀ d, d ∈ found → d = DefectType.STAINS)
         ∧ ¬ (DefectType.BUBBLES ∈ [DefectType.STAINS]
              ∨ DefectType.BREAKAGE ∈ [DefectType.STAINS]
              ∨ DefectType.INCORRECT_SHAPE ∈ [DefectType.STAINS]))
    ∧ (st = QualityStatus.APPROVED ∨ st = QualityStatus.REJECTED).
Proof.
  intros w.
  apply (inspect_molded_visual visual_system w 0 "molding"
           (fresh_chocolate (cls_MoldedChocolate "heart") "M-1") "heart"
           [DefectType.STAINS]); reflexivity.
Defined.

(** ** The defect details of the report *)

Lemma dict_get_set_eq (d : dict) k v default : dict_get (dict_set d k v) k default = v.
Proof.
  induction d as [|[k' v'] d IH]; simpl.
  - by rewrite bool_decide_eq_true_2.
  - case_bool_decide as Hk; simpl.
    + by rewrite bool_decide_eq_true_2.
    + by rewrite bool_decide_eq_false_2.
Qed.

Lemma dict_get_set_ne (d : dict) k k' v default :
  k ≠ k' → dict_get (dict_set d k v) k' default = dict_get d k' default.
Proof.
  intros Hne. induction d as [|[k0 v0] d IH]; simpl.
  - by rewrite bool_decide_eq_false_2.
  - case_bool_decide as Hk; simpl.
    + subst k0. by rewrite !bool_decide_eq_false_2.
    + case_bool_decide; [done|]. apply IH.
Qed.

Lemma dict_set_keys (d : dict) k v :
  (dict_set d k v).*1 = if bool_decide (k ∈ d.*1) then d.*1 else d.*1 ++ [k].
Proof.
  induction d as [|[k' v'] d IH]; [done|].
  cbn [dict_set]. rewrite (fmap_cons fst (k', v') d). cbn [fst].
  destruct (decide (k' = k)) as [->|Hk].
  - rewrite (bool_decide_eq_true_2 (k = k)) by done.
    rewrite fmap_cons. cbn [fst]. by rewrite bool_decide_eq_true_2 by left.
  - rewrite (bool_decide_eq_false_2 (k' = k)) by done.
    rewrite fmap_cons, IH. cbn [fst].
    destruct (decide (k ∈ d.*1)) as [Hin|Hin].
    + rewrite (bool_decide_eq_true_2 (k ∈ d.*1)) by done.
      by rewrite bool_decide_eq_true_2 by (by right).
    + rewrite (bool_decide_eq_false_2 (k ∈ d.*1)) by done.
      rewrite bool_decide_eq_false_2; [done|].
      intros [?|?]%elem_of_cons; congruence.
Qed.

Lemma dict_get_elem (d : dict) k n default :
  NoDup d.*1 → (k, n) ∈ d → dict_get d k default = n.
Proof.
  induction d as [|[k' v'] d IH]; intros Hnodup Hin.
  - by apply elem_of_nil in Hin.
  - rewrite fmap_cons in Hnodup. cbn [fst] in Hnodup.
    apply NoDup_cons in Hnodup as [Hk' Hnodup]. cbn [dict_get].
    apply elem_of_cons in Hin as [[= <- <-]|Hin].
    + by rewrite bool_decide_eq_true_2.
    + rewrite bool_decide_eq_false_2; [by apply IH|].
      intros ->. apply Hk', list_elem_of_fmap. by exists (k, n).
Qed.

Lemma elem_of_concat_2 {A} (x : A) (l : list A) (ls : list (list A)) :
  x ∈ l → l ∈ ls → x ∈ concat ls.
Proof.
  intros Hx. induction ls as [|l' ls IH]; intros Hl; [by apply elem_of_nil in Hl|].
  simpl. apply elem_of_app. apply elem_of_cons in Hl as [<-|Hl]; [by left|].
  right. by apply IH.
Qed.

Lemma foldl_concat {A B} (f : A → B → A) (ls : list (list B)) : ∀ a,
  foldl (λ a l, foldl f a l) a ls = foldl f a (concat ls).
Proof.
  induction ls as [|l ls IH]; intros a; simpl; [done|].
  by rewrite IH, foldl_app.
Qed.

(** [count_defects] goes through all the defects of all the records, one
    after the other. *)
Lemma count_defects_concat (results : list record.t) :
  count_defects results
  = foldl (λ defect_counter defect,
             dict_set defect_counter defect (dict_get defect_counter defect 0 + 1))
          [] (concat (record.defects <$> results)).
Proof.
  unfold count_defects. rewrite <- foldl_concat.
  generalize ([] : dict). induction results as [|r rs IH]; intros d; simpl; [done|].
  apply IH.
Qed.

Lemma count_step_get (l : list string) k : ∀ d : dict,
  dict_get
    (foldl (λ defect_counter defect,
              dict_set defect_counter defect (dict_get defect_counter defect 0 + 1))
           d l) k 0
  = dict_get d k 0 + length (filter (λ x, x = k) l).
Proof.
  induction l as [|x l IH]; intros d; simpl; [lia|].
  rewrite IH, filter_cons. case_decide as Hx.
  - subst x. rewrite dict_get_set_eq. simpl. lia.
  - by rewrite dict_get_set_ne.
Qed.

Lemma count_step_keys (l : list string) : ∀ d : dict,
  NoDup d.*1 →
  let d' := foldl (λ defect_counter defect,
                     dict_set defect_counter defect (dict_get defect_counter defect 0 + 1))
                  d l in
  NoDup d'.*1 ∧ ∀ k, k ∈ d'.*1 ↔ k ∈ d.*1 ∨ k ∈ l.
Proof.
  induction l as [|x l IH]; intros d Hnodup; simpl.
  - split; [done|]. intros k. rewrite elem_of_nil. tauto.
  - match goal with |- context [foldl _ ?d1 l] => destruct (IH d1) as [Hn Hk] end.
    { rewrite dict_set_keys. case_bool_decide as Hx; [done|].
      apply NoDup_app. split; [done|]. split; [|apply NoDup_singleton].
      by intros y Hy ->%list_elem_of_singleton. }
    split; [done|]. intros k. rewrite Hk, dict_set_keys, elem_of_cons.
    case_bool_decide as Hx.
    + split; [tauto|]. intros [?|[->|?]]; tauto.
    + rewrite elem_of_app, list_elem_of_singleton. tauto.
Qed.

(** X13. The defect details of the report count right: every defect that
    occurs in some record has one line, and no other defect has one; the
    count of a line is the number of times the defect occurs in the lists
    of all the records together, repetitions within a record and across
    records included, and is not zero.  There is no line at all, and the
    report says that no defects were detected, exactly when every record
    has an empty list. *)
Theorem count_defects_counts (results : list record.t) :
  let occurrences := concat (record.defects <$> results) in
  NoDup (count_defects results).*1
  ∧ (∀ defect, defect ∈ (count_defects results).*1 ↔ defect ∈ occurrences)
  ∧ (∀ defect,
       dict_get (count_defects results) defect 0
       = length (filter (λ x, x = defect) occurrences))
  ∧ (∀ defect count,
       (defect, count) ∈ count_defects results →
       count = length (filter (λ x, x = defect) occurrences) ∧ (0 < count)%nat)
  ∧ (count_defects results = [] ↔ ∀ r, r ∈ results → record.defects r = []).
Proof.
  intros occurrences. rewrite count_defects_concat. fold occurrences.
  destruct (count_step_keys occurrences [] (NoDup_nil_2)) as [Hnodup Hkeys].
  simpl in Hnodup, Hkeys.
  assert (∀ defect,
            dict_get
              (foldl (λ defect_counter defect,
                        dict_set defect_counter defect
                                 (dict_get defect_counter defect 0 + 1))
                     [] occurrences) defect 0
            = length (filter (λ x, x = defect) occurrences)) as Hget
    by (intros defect; by rewrite count_step_get).
  split; [done|]. split.
  { intros defect. rewrite Hkeys, elem_of_nil. tauto. }
  split; [done|]. split.
  - intros defect count Hin.
    pose proof (dict_get_elem _ _ _ 0 Hnodup Hin) as Hcount.
    rewrite Hget in Hcount. split; [done|].
    assert (defect ∈ occurrences) as Hocc.
    { assert (defect ∈ (foldl (λ defect_counter defect,
                                 dict_set defect_counter defect
                                          (dict_get defect_counter defect 0 + 1))
                              [] occurrences).*1) as Hk
        by (apply list_elem_of_fmap; by exists (defect, count)).
      apply Hkeys in Hk as [Hk|Hk]; [by apply elem_of_nil in Hk|done]. }
    subst count.
    assert (defect ∈ filter (λ x, x = defect) occurrences) as Hf
      by (by apply list_elem_of_filter).
    destruct (filter _ occurrences); [by apply elem_of_nil in Hf|simpl; lia].
  - split.
    + intros Hempty r Hr.
      destruct (record.defects r) as [|x xs] eqn:Hdefects; [done|]. exfalso.
      assert (x ∈ occurrences) as Hx.
      { unfold occurrences. apply (elem_of_concat_2 _ (record.defects r)).
        - rewrite Hdefects. by left.
        - apply list_elem_of_fmap. by exists r. }
      assert (x ∈ (foldl (λ defect_counter defect,
                            dict_set defect_counter defect
                                     (dict_get defect_counter defect 0 + 1))
                         [] occurrences).*1) as Hk by (apply Hkeys; by right).
      rewrite Hempty in Hk. by apply elem_of_nil in Hk.
    + intros Hall.
      assert (occurrences = []) as ->; [|done].
      unfold occurrences. clear -Hall.
      induction results as [|r rs IH]; [done|]. simpl.
      rewrite (Hall r) by left. simpl. apply IH. intros r' Hr'. apply Hall. by right.
Qed.

(** ** The summary report at its ends *)

(** The text of the report of a ledger that is not empty: the head, with
    its numbers, and the defect details. *)
Lemma generate_report_text sys w :
  _results sys ≠ [] →
  ∃ details,
    generate_report (sys, w)
    = (Return
         ((LF +:+
           "        QUALITY CONTROL REPORT" +:+ LF +:+
           "        ======================" +:+ LF +:+
           "        Total inspections: " +:+ str (length (_results sys)) +:+ LF +:+
           "        Approved products: " +:+
             str (length (filter (λ r, record.result r = "approved") (_results sys)))
             +:+ LF +:+
           "        Rejected products: " +:+
             str (length (_results sys)
                  - length (filter (λ r, record.result r = "approved") (_results sys)))
             +:+ LF +:+
           "        Approval rate: " +:+
             format_2f
               (float_mul
                  (nearest_float
                     (Z.of_nat (length (filter (λ r, record.result r = "approved")
                                               (_results sys))))
                     (Z.of_nat (length (_results sys))))
                  (float_of_int 100)) +:+ "%" +:+ LF +:+
           "        " +:+ LF +:+
           "        Defect details:" +:+ LF +:+
           "        ") +:+ details),
       (sys, w)).
Proof.
  intros Hne. rewrite generate_report_run, bool_decide_eq_false_2 by done. cbv zeta.
  case_bool_decide.
  - eexists. apply (f_equal (λ text, (Return text, (sys, w)))).
    apply (foldl_append _
             (λ '(defect, count),
                "  - " +:+ defect +:+ ": " +:+ str count +:+ " occurrences" +:+ LF)).
    by intros report [defect count].
  - by eexists.
Qed.

Lemma nearest_float_same (t : Z) :
  (0 < t)%Z → nearest_float t t = {| mantissa := 2 ^ 52; exponent := -52 |}.
Proof.
  intros Ht. unfold nearest_float.
  rewrite (proj2 (Z.eqb_neq t 0)) by lia.
  rewrite Z.sub_diag. cbv zeta.
  change (0 <=? 0)%Z with true. cbv iota.
  change (2 ^ 0)%Z with 1%Z. rewrite Z.mul_1_r, !Z.leb_refl.
  change (Z.max (0 - 52) (-1074)) with (-52)%Z.
  change (0 <=? -52)%Z with false. cbv iota.
  change (- -52)%Z with 52%Z.
  f_equal. unfold round_half_even.
  rewrite (Z.mul_comm t), Z.div_mul, Z.mod_mul by lia.
  by rewrite (proj2 (Z.ltb_lt _ _)) by lia.
Qed.

Lemma filter_all {A} (P : A → Prop) `{∀ x, Decision (P x)} (l : list A) :
  (∀ x, x ∈ l → P x) → filter P l = l.
Proof.
  induction l as [|x l IH]; intros Hall; [done|].
  rewrite filter_cons, decide_True by (apply Hall; left).
  f_equal. apply IH. intros y Hy. apply Hall. by right.
Qed.

Lemma filter_none {A} (P : A → Prop) `{∀ x, Decision (P x)} (l : list A) :
  (∀ x, x ∈ l → ¬ P x) → filter P l = [].
Proof.
  induction l as [|x l IH]; intros Hall; [done|].
  rewrite filter_cons, decide_False by (apply Hall; left).
  apply IH. intros y Hy. apply Hall. by right.
Qed.

(** X14. The two ends of the summary report, for a ledger of any length
    that is not empty: when every record is approved, the report counts
    them all as approved and none as rejected and prints the rate
    [100.00%]; when no record is approved it counts none as approved, all
    as rejected, and prints [0.00%].  The binary64 division and
    multiplication are exact at both ends. *)
Theorem report_rate_extremes sys w :
  _results sys ≠ [] →
  ((∀ r, r ∈ _results sys → record.result r = "approved") →
   ∃ details,
     generate_report (sys, w)
     = (Return
          ((LF +:+
            "        QUALITY CONTROL REPORT" +:+ LF +:+
            "        ======================" +:+ LF +:+
            "        Total inspections: " +:+ str (length (_results sys)) +:+ LF +:+
            "        Approved products: " +:+ str (length (_results sys)) +:+ LF +:+
            "        Rejected products: " +:+ "0" +:+ LF +:+
            "        Approval rate: " +:+ "100.00" +:+ "%" +:+ LF +:+
            "        " +:+ LF +:+
            "        Defect details:" +:+ LF +:+
            "        ") +:+ details),
        (sys, w)))
  ∧ ((∀ r, r ∈ _results sys → record.result r ≠ "approved") →
     ∃ details,
       generate_report (sys, w)
       = (Return
            ((LF +:+
              "        QUALITY CONTROL REPORT" +:+ LF +:+
              "        ======================" +:+ LF +:+
              "        Total inspections: " +:+ str (length (_results sys)) +:+ LF +:+
              "        Approved products: " +:+ "0" +:+ LF +:+
              "        Rejected products: " +:+ str (length (_results sys)) +:+ LF +:+
              "        Approval rate: " +:+ "0.00" +:+ "%" +:+ LF +:+
              "        " +:+ LF +:+
              "        Defect details:" +:+ LF +:+
              "        ") +:+ details),
          (sys, w))).
Proof.
  intros Hne.
  destruct (generate_report_text sys w Hne) as (details & Hrun).
  assert (0 < length (_results sys))%nat as Hpos
    by (destruct (_results sys); [done|simpl; lia]).
  split; intros Hall; exists details; rewrite Hrun.
  - rewrite (filter_all _ _ Hall), Nat.sub_diag.
    rewrite nearest_float_same by lia. done.
  - rewrite (filter_none _ _ Hall). simpl (length []). rewrite Nat.sub_0_r. done.
Qed.

Lemma report_rate_extremes_witness :
  let sys := (inspect_chocolate 0 "molding"
                (bubbles_system, world_with (cls_MoldedChocolate "heart") "M-1" [])).2.1 in
  let w := empty_world in
  ((∀ r, r ∈ _results sys → record.result r = "approved") →
   ∃ details,
     generate_report (sys, w)
     = (Return
          ((LF +:+
            "        QUALITY CONTROL REPORT" +:+ LF +:+
            "        ======================" +:+ LF +:+
            "        Total inspections: " +:+ str (length (_results sys)) +:+ LF +:+
            "        Approved products: " +:+ str (length (_results sys)) +:+ LF +:+
            "        Rejected products: " +:+ "0" +:+ LF +:+
            "        Approval rate: " +:+ "100.00" +:+ "%" +:+ LF +:+
            "        " +:+ LF +:+
            "        Defect details:" +:+ LF +:+
            "        ") +:+ details),
        (sys, w)))
  ∧ ((∀ r, r ∈ _results sys → record.result r ≠ "approved") →
     ∃ details,
       generate_report (sys, w)
       = (Return
            ((LF +:+
              "        QUALITY CONTROL REPORT" +:+ LF +:+
              "        ======================" +:+ LF +:+
              "        Total inspections: " +:+ str (length (_results sys)) +:+ LF +:+
              "        Approved products: " +:+ "0" +:+ LF +:+
              "        Rejected products: " +:+ str (length (_results sys)) +:+ LF +:+
              "        Approval rate: " +:+ "0.00" +:+ "%" +:+ LF +:+
              "        " +:+ LF +:+
              "        Defect details:" +:+ LF +:+
              "        ") +:+ details),
          (sys, w))).
Proof.
  intros sys w. apply (report_rate_extremes sys w). vm_compute. discriminate.
Defined.





(** ** What the ledger holds *)

(** The record of an inspection is well formed: its result is the value of
    approved or of rejected, its defects are values of defect kinds, and its
    class is one of the three. *)
Lemma inspect_chocolate_ledger_records chocolate process sys w :
  ∃ rs,
    _results (inspect_chocolate chocolate process (sys, w)).2.1 = _results sys ++ rs
    ∧ ∀ r, r ∈ rs →
        (record.result r = "approved" ∨ record.result r = "rejected")
        ∧ record.process r = process
        ∧ (∀ x, x ∈ record.defects r → ∃ d, x = DefectType.value d)
        ∧ record.chocolate_type r ∈ ["Chocolate"; "MoldedChocolate"; "PackagedChocolate"].
Proof.
  destruct (inspect_chocolate chocolate process (sys, w)) as [[st|e] [sys' w']] eqn:H.
  - destruct (inspect_chocolate_Return_inv _ _ _ _ _ _ H)
      as (sensor & defects & w1 & ds & c & D & Hsensor & Hdetect & Hds & Hc & HD).
    destruct (inspect_chocolate_run sys w chocolate process _ _ _ _ _ _
                Hsensor Hdetect Hds Hc HD) as (st' & Hst & _ & Hrun).
    rewrite Hrun in H. injection H as -> <- <-.
    eexists [_]. split; [done|].
    intros r ->%list_elem_of_singleton. simpl.
    split; [destruct Hst as [->| ->]; tauto|]. split; [done|]. split.
    + intros x (d & -> & _)%list_elem_of_fmap. by exists d.
    + destruct (__class__ c); simpl; rewrite !elem_of_cons; tauto.
  - destruct (inspect_chocolate_ledger chocolate process sys w) as (rs & Hrs & Hlen).
    rewrite H in Hrs, Hlen. simpl in Hrs, Hlen.
    destruct rs; [|done]. exists []. split; [by rewrite Hrs|].
    by intros r ?%elem_of_nil.
Qed.

(** X16. Every record in the ledger of a control system that began empty
    is well formed, whatever calls were made: its result is ["approved"] or
    ["rejected"], never ["pending"]; its defects are values of defect kinds;
    its class is one of the three.  So the number the report gives as
    rejected, the total less the approved, is the number of records whose
    result is ["rejected"]. *)
Theorem ledger_records_wellformed cs w :
  let ledger := _results (run_calls cs (__init__, w)).2.1 in
  (∀ r, r ∈ ledger →
     (record.result r = "approved" ∨ record.result r = "rejected")
     ∧ (∀ x, x ∈ record.defects r → ∃ d, x = DefectType.value d)
     ∧ record.chocolate_type r ∈ ["Chocolate"; "MoldedChocolate"; "PackagedChocolate"])
  ∧ length (filter (λ r, record.result r = "rejected") ledger)
    = length ledger - length (filter (λ r, record.result r = "approved") ledger).
Proof.
  intros ledger.
  assert (∀ r, r ∈ ledger →
     (record.result r = "approved" ∨ record.result r = "rejected")
     ∧ (∀ x, x ∈ record.defects r → ∃ d, x = DefectType.value d)
     ∧ record.chocolate_type r ∈ ["Chocolate"; "MoldedChocolate"; "PackagedChocolate"])
    as Hwf.
  { unfold ledger.
    assert (∀ r, r ∈ _results (__init__, w).1 →
      (record.result r = "approved" ∨ record.result r = "rejected")
      ∧ (∀ x, x ∈ record.defects r → ∃ d, x = DefectType.value d)
      ∧ record.chocolate_type r ∈ ["Chocolate"; "MoldedChocolate"; "PackagedChocolate"])
      as Hinit by (by intros r ?%elem_of_nil).
    revert Hinit. generalize (__init__, w). clear.
    induction cs as [|c cs IH]; intros s Hs; [done|]. simpl.
    destruct (run_call c s) as [inspected s1] eqn:Hcall.
    specialize (IH s1). destruct (run_calls cs s1) as [n s2]. simpl in *.
    apply IH. clear IH.
    destruct c as [process sensor|chocolate process| | |m]; simpl in Hcall.
    - injection Hcall as _ <-. done.
    - destruct s as [sys w0].
      destruct (inspect_chocolate_ledger_records chocolate process sys w0)
        as (rs & Hrs & Hnew).
      destruct (inspect_chocolate chocolate process (sys, w0)) as [o s'].
      injection Hcall as _ <-. simpl in Hrs. rewrite Hrs.
      intros r [Hr|Hr]%elem_of_app; [by apply Hs|].
      destruct (Hnew r Hr) as (? & _ & ? & ?). done.
    - injection Hcall as _ <-. by rewrite generate_report_state.
    - injection Hcall as _ <-. by rewrite show_inspections_state.
    - injection Hcall as _ <-. by rewrite in_world_system. }
  split; [done|].
  clear -Hwf. induction ledger as [|r rs IH]; [done|].
  rewrite !filter_cons. specialize (IH ltac:(intros r' Hr'; apply Hwf; by right)).
  pose proof (length_filter_le (λ r, record.result r = "approved") rs).
  destruct (Hwf r ltac:(left)) as ([Hr|Hr] & _).
  - rewrite (decide_False (P := record.result r = "rejected")) by (by rewrite Hr).
    rewrite (decide_True (P := record.result r = "approved")) by done. simpl. lia.
  - rewrite (decide_True (P := record.result r = "rejected")) by done.
    rewrite (decide_False (P := record.result r = "approved")) by (by rewrite Hr).
    simpl. lia.
Qed.

(** ** The history *)




(** ** The simulation of a production run *)

Lemma in_system_Return {A} (m : Eff State A) st out a st' :
  m st = (Return a, st') → in_system m (st, out) = (Return a, (st', out)).
Proof. intros H. unfold in_system. simpl. by rewrite H. Qed.

Lemma in_system_Raise {A} (m : Eff State A) st out e st' :
  m st = (Raise e, st') → in_system m (st, out) = (Raise e, (st', out)).
Proof. intros H. unfold in_system. simpl. by rewrite H. Qed.

Lemma print_run text (s : Session) : print text s = (Return tt, (s.1, s.2 ++ [text])).
Proof. done. Qed.

(** What the constructor does, in full. *)
Lemma Chocolate_init_run cls batch_id production_date w :
  let l := fresh (dom (lists w)) in
  let self := fresh (dom (chocolates w)) in
  let c := {| __class__ := cls; _batch_id := batch_id;
              _production_date := production_date;
              _defects := l; _quality_status := QualityStatus.PENDING |} in
  Chocolate.__init__ cls batch_id production_date w
  = (Return self,
     {| lists := <[l := []]> (lists w); chocolates := <[self := c]> (chocolates w);
        random_source := random_source w; random_drawn := random_drawn w;
        clock_source := clock_source w; clock_read := clock_read w |}).
Proof. done. Qed.

(** One turn of the simulation when the visual sensor is registered for
    both processes: it returns, prints two lines, and adds to the ledger the
    record of the molding and, when the molding approved, the record of the
    packaging. *)
Lemma simulate_one_visual i sys w out :
  _sensors sys !! "molding" = Some VisualSensor.__init__ →
  _sensors sys !! "packaging" = Some VisualSensor.__init__ →
  ∃ sys' w' rs line1 line2,
    simulate_one i ((sys, w), out) = (Return tt, ((sys', w'), out ++ [line1; line2]))
    ∧ _sensors sys' = _sensors sys
    ∧ _results sys' = _results sys ++ rs
    ∧ ((∃ rm, rs = [rm]
              ∧ record.process rm = "molding"
              ∧ record.batch_id rm = "BATCH-M-" +:+ str (i + 1)
              ∧ record.chocolate_type rm = "MoldedChocolate"
              ∧ record.result rm = "rejected")
       ∨ (∃ rm rp, rs = [rm; rp]
              ∧ record.process rm = "molding"
              ∧ record.batch_id rm = "BATCH-M-" +:+ str (i + 1)
              ∧ record.chocolate_type rm = "MoldedChocolate"
              ∧ record.result rm = "approved"
              ∧ record.process rp = "packaging"
              ∧ record.batch_id rp = "BATCH-P-" +:+ str (i + 1)
              ∧ record.chocolate_type rp = "PackagedChocolate"
              ∧ (record.result rp = "approved" ∨ record.result rp = "rejected"))).
Proof.
  intros Hmolding Hpackaging. unfold simulate_one.
  (* the molded chocolate *)
  set (w0 := {| lists := lists w; chocolates := chocolates w;
                random_source := random_source w; random_drawn := random_drawn w;
                clock_source := clock_source w; clock_read := S (clock_read w) |}).
  assert (datetime_now w = (Return (clock_source w (clock_read w)), w0)) as Hnow by done.
  rewrite (bind_Return _ _ _ _ _
             (in_system_Return _ _ out _ _ (in_world_Return _ sys _ _ _ Hnow))).
  set (molded := fresh (dom (chocolates w0))).
  set (c := {| __class__ := cls_MoldedChocolate "heart";
               _batch_id := "BATCH-M-" +:+ str (i + 1);
               _production_date := clock_source w (clock_read w);
               _defects := fresh (dom (lists w0));
               _quality_status := QualityStatus.PENDING |}).
  set (w1 := {| lists := <[_defects c := []]> (lists w0);
                chocolates := <[molded := c]> (chocolates w0);
                random_source := random_source w0; random_drawn := random_drawn w0;
                clock_source := clock_source w0; clock_read := clock_read w0 |}).
  assert (MoldedChocolate.__init__ ("BATCH-M-" +:+ str (i + 1))
            (clock_source w (clock_read w)) "heart" w0 = (Return molded, w1)) as Hinit
    by done.
  rewrite (bind_Return _ _ _ _ _
             (in_system_Return _ _ out _ _ (in_world_Return _ sys _ _ _ Hinit))).
  assert (chocolates w1 !! molded = Some c) as Hc by (simpl; by rewrite lookup_insert_eq).
  assert (lists w1 !! _defects c = Some []) as HD by (simpl; by rewrite lookup_insert_eq).
  destruct (inspect_chocolate_visual_run sys w1 molded "molding" c [] Hc HD Hmolding)
    as (found & st & w2 & date & Hrun & Hch2 & Heval & _).
  match type of Hrun with _ = (_, (?sys1', _)) => set (sys1 := sys1') in * end.
  rewrite (bind_Return _ _ _ _ _ (in_system_Return _ _ out _ _ Hrun)).
  assert (chocolates w2 !! molded = Some (set_status st c)) as Hc2
    by (rewrite Hch2; by rewrite lookup_insert_eq).
  assert (Chocolate.batch_id molded w2 = (Return (_batch_id c), w2)) as Hbatch.
  { unfold Chocolate.batch_id.
    by rewrite (bind_Return _ _ _ _ _ (read_chocolate_Return _ _ _ Hc2)). }
  rewrite (bind_Return _ _ _ _ _
             (in_system_Return _ _ out _ _ (in_world_Return _ sys1 _ _ _ Hbatch))).
  rewrite (bind_Return _ _ _ _ _ (print_run _ _)). cbn [fst snd].
  assert (st = QualityStatus.APPROVED ∨ st = QualityStatus.REJECTED) as Hst.
  { set (W := with_lists (<[_defects c := added [] found]> (lists w1)) w1).
    assert (lists W !! _defects c = Some (added [] found)) as HDW
      by (simpl; by rewrite lookup_insert_eq).
    specialize (Heval W Hc HDW).
    destruct (evaluate_quality_returns W molded c _ Hc HDW) as (s & Hs & Hor).
    rewrite Hs in Heval. simpl in Heval. by injection Heval as <-. }
  destruct Hst as [-> | ->].
  - (* approved: the packaged chocolate *)
    rewrite bool_decide_eq_true_2 by done.
    set (w2' := {| lists := lists w2; chocolates := chocolates w2;
                   random_source := random_source w2; random_drawn := random_drawn w2;
                   clock_source := clock_source w2; clock_read := S (clock_read w2) |}).
    assert (datetime_now w2 = (Return (clock_source w2 (clock_read w2)), w2')) as Hnow2
      by done.
    rewrite (bind_Return _ _ _ _ _
               (in_system_Return _ _ _ _ _ (in_world_Return _ sys1 _ _ _ Hnow2))).
    set (packaged := fresh (dom (chocolates w2'))).
    set (cp := {| __class__ := cls_PackagedChocolate "gift_box";
                  _batch_id := "BATCH-P-" +:+ str (i + 1);
                  _production_date := clock_source w2 (clock_read w2);
                  _defects := fresh (dom (lists w2'));
                  _quality_status := QualityStatus.PENDING |}).
    set (w3 := {| lists := <[_defects cp := []]> (lists w2');
                  chocolates := <[packaged := cp]> (chocolates w2');
                  random_source := random_source w2'; random_drawn := random_drawn w2';
                  clock_source := clock_source w2'; clock_read := clock_read w2' |}).
    assert (PackagedChocolate.__init__ ("BATCH-P-" +:+ str (i + 1))
              (clock_source w2 (clock_read w2)) "gift_box" w2' = (Return packaged, w3))
      as Hinit2 by done.
    rewrite (bind_Return _ _ _ _ _
               (in_system_Return _ _ _ _ _ (in_world_Return _ sys1 _ _ _ Hinit2))).
    assert (chocolates w3 !! packaged = Some cp) as Hcp
      by (simpl; by rewrite lookup_insert_eq).
    assert (lists w3 !! _defects cp = Some []) as HDp
      by (simpl; by rewrite lookup_insert_eq).
    destruct (inspect_chocolate_visual_run sys1 w3 packaged "packaging" cp [] Hcp HDp
                Hpackaging)
      as (foundp & stp & w4 & datep & Hrunp & Hch4 & Hevalp & _).
    match type of Hrunp with _ = (_, (?sys2', _)) => set (sys2 := sys2') in * end.
    rewrite (bind_Return _ _ _ _ _ (in_system_Return _ _ _ _ _ Hrunp)).
    assert (chocolates w4 !! packaged = Some (set_status stp cp)) as Hc4
      by (rewrite Hch4; by rewrite lookup_insert_eq).
    assert (Chocolate.batch_id packaged w4 = (Return (_batch_id cp), w4)) as Hbatchp.
    { unfold Chocolate.batch_id.
      by rewrite (bind_Return _ _ _ _ _ (read_chocolate_Return _ _ _ Hc4)). }
    rewrite (bind_Return _ _ _ _ _
               (in_system_Return _ _ _ _ _ (in_world_Return _ sys2 _ _ _ Hbatchp))).
    rewrite print_run. cbn [fst snd].
    assert (stp = QualityStatus.APPROVED ∨ stp = QualityStatus.REJECTED) as Hstp.
    { set (W := with_lists (<[_defects cp := added [] foundp]> (lists w3)) w3).
      assert (lists W !! _defects cp = Some (added [] foundp)) as HDW
        by (simpl; by rewrite lookup_insert_eq).
      specialize (Hevalp W Hcp HDW).
      destruct (evaluate_quality_returns W packaged cp _ Hcp HDW) as (s & Hs & Hor).
      rewrite Hs in Hevalp. simpl in Hevalp. by injection Hevalp as <-. }
    eexists sys2, w4, [_; _], _, _. rewrite <- app_assoc.
    split; [reflexivity|]. split; [done|]. split.
    { unfold sys2, sys1. simpl. by rewrite <- app_assoc. }
    right. eexists _, _. split; [reflexivity|]. simpl.
    do 7 (split; [done|]). destruct Hstp as [-> | ->]; tauto.
  - (* rejected *)
    rewrite bool_decide_eq_false_2 by done.
    rewrite (bind_Return _ _ _ _ _
               (in_system_Return _ _ _ _ _ (in_world_Return _ sys1 _ _ _ Hbatch))).
    rewrite print_run. cbn [fst snd].
    eexists sys1, w2, [_], _, _. rewrite <- app_assoc.
    split; [reflexivity|]. split; [done|]. split; [done|].
    left. eexists. split; [reflexivity|]. done.
Qed.

(** The loop of the simulation when the visual sensor is registered for
    both processes. *)
Lemma simulate_loop_visual n : ∀ a sys w out,
  _sensors sys !! "molding" = Some VisualSensor.__init__ →
  _sensors sys !! "packaging" = Some VisualSensor.__init__ →
  ∃ sys' w' rs lines,
    for_each (seq a n) simulate_one ((sys, w), out)
    = (Return tt, ((sys', w'), out ++ lines))
    ∧ _sensors sys' = _sensors sys
    ∧ _results sys' = _results sys ++ rs
    ∧ length lines = 2 * n
    ∧ record.batch_id <$> filter (λ r, record.process r = "molding") rs
      = (λ i, "BATCH-M-" +:+ str (i + 1)) <$> seq a n
    ∧ length (filter (λ r, record.process r = "packaging") rs)
      = length (filter (λ r, record.process r = "molding"
                             ∧ record.result r = "approved") rs)
    ∧ (n ≤ length rs ≤ 2 * n)%nat.
Proof.
  induction n as [|n IH]; intros a sys w out Hmolding Hpackaging.
  - exists sys, w, [], []. simpl. unfold mret, Eff_ret. rewrite !app_nil_r.
    repeat split; try done.
  - cbn [seq for_each].
    destruct (simulate_one_visual a sys w out Hmolding Hpackaging)
      as (sys1 & w1 & rs1 & line1 & line2 & Hone & Hsensors1 & Hresults1 & Hrs1).
    rewrite (bind_Return _ _ _ _ _ Hone).
    destruct (IH (S a) sys1 w1 (out ++ [line1; line2]))
      as (sys2 & w2 & rs2 & lines & Hrest & Hsensors2 & Hresults2 & Hlines
          & Hbatch & Hpack & Hlen); [by rewrite Hsensors1..|].
    exists sys2, w2, (rs1 ++ rs2), ([line1; line2] ++ lines).
    rewrite Hrest, app_assoc. split; [done|].
    split; [by rewrite Hsensors2|].
    split; [by rewrite Hresults2, Hresults1, app_assoc|].
    split; [rewrite length_app, Hlines; simpl; lia|].
    rewrite !filter_app, !length_app, fmap_app, Hbatch, Hpack.
    destruct Hrs1 as [(rm & -> & Hpm & Hbm & _ & Hrm)
                     |(rm & rp & -> & Hpm & Hbm & _ & Hrm & Hpp & _)].
    + rewrite !filter_cons, !filter_nil.
      rewrite (decide_True (P := record.process rm = "molding")) by done.
      rewrite (decide_False (P := record.process rm = "packaging")) by (by rewrite Hpm).
      rewrite (decide_False (P := record.process rm = "molding"
                                  ∧ record.result rm = "approved"))
        by (rewrite Hrm; by intros [_ ?]).
      simpl. rewrite Hbm. split; [done|]. split; [done|]. lia.
    + rewrite !filter_cons, !filter_nil.
      rewrite (decide_True (P := record.process rm = "molding")) by done.
      rewrite (decide_False (P := record.process rm = "packaging")) by (by rewrite Hpm).
      rewrite (decide_True (P := record.process rm = "molding"
                                 ∧ record.result rm = "approved")) by done.
      rewrite (decide_False (P := record.process rp = "molding")) by (by rewrite Hpp).
      rewrite (decide_True (P := record.process rp = "packaging")) by done.
      rewrite (decide_False (P := record.process rp = "molding"
                                  ∧ record.result rp = "approved"))
        by (rewrite Hpp; by intros [? _]).
      simpl. rewrite Hbm. split; [done|]. split; [done|]. lia.
Qed.

(** X18. With the visual sensor registered for molding and for packaging,
    as [main] registers it, [simulate_batch_production] returns for every
    quantity.  It prints the first line and two lines for each chocolate.
    The ledger gets one molding record for each chocolate, with the batch
    ids [BATCH-M-1], [BATCH-M-2] and so on in this order, and as many
    packaging records as molding records that are approved: a chocolate is
    packaged only when its molding was approved.  So a run of [n] chocolates
    adds at least [n] and at most [2 * n] records; the registry stays as it
    is. *)
Theorem simulate_batch_production_visual quantity sys w out :
  _sensors sys !! "molding" = Some VisualSensor.__init__ →
  _sensors sys !! "packaging" = Some VisualSensor.__init__ →
  ∃ sys' w' rs lines,
    simulate_batch_production quantity ((sys, w), out)
    = (Return tt,
       ((sys', w'),
        out ++ (LF +:+ "Simulating production of " +:+ str_int quantity
                +:+ " chocolates...") :: lines))
    ∧ _sensors sys' = _sensors sys
    ∧ _results sys' = _results sys ++ rs
    ∧ length lines = 2 * Z.to_nat quantity
    ∧ record.batch_id <$> filter (λ r, record.process r = "molding") rs
      = (λ i, "BATCH-M-" +:+ str (i + 1)) <$> seq 0 (Z.to_nat quantity)
    ∧ length (filter (λ r, record.process r = "packaging") rs)
      = length (filter (λ r, record.process r = "molding"
                             ∧ record.result r = "approved") rs)
    ∧ (Z.to_nat quantity ≤ length rs ≤ 2 * Z.to_nat quantity)%nat.
Proof.
  intros Hmolding Hpackaging. unfold simulate_batch_production.
  rewrite (bind_Return _ _ _ _ _ (print_run _ _)). cbn [fst snd]. cbv beta.
  destruct (simulate_loop_visual (Z.to_nat quantity) 0 sys w
              (out ++ [LF +:+ "Simulating production of " +:+ str_int quantity
                       +:+ " chocolates..."]) Hmolding Hpackaging)
    as (sys' & w' & rs & lines & Hrun & Hrest).
  exists sys', w', rs, lines. split; [|exact Hrest].
  rewrite <- app_assoc in Hrun. exact Hrun.
Qed.

Lemma simulate_batch_production_visual_witness :
  ∃ sys' w' rs lines,
    simulate_batch_production 3 ((visual_system, empty_world), [])
    = (Return tt,
       ((sys', w'),
        [] ++ (LF +:+ "Simulating production of " +:+ str_int 3
               +:+ " chocolates...") :: lines))
    ∧ _sensors sys' = _sensors visual_system
    ∧ _results sys' = _results visual_system ++ rs
    ∧ length lines = 2 * Z.to_nat 3
    ∧ record.batch_id <$> filter (λ r, record.process r = "molding") rs
      = (λ i, "BATCH-M-" +:+ str (i + 1)) <$> seq 0 (Z.to_nat 3)
    ∧ length (filter (λ r, record.process r = "packaging") rs)
      = length (filter (λ r, record.process r = "molding"
                             ∧ record.result r = "approved") rs)
    ∧ (Z.to_nat 3 ≤ length rs ≤ 2 * Z.to_nat 3)%nat.
Proof.
  apply (simulate_batch_production_visual 3 visual_system empty_world []); reflexivity.
Defined.

Lemma simulate_one_unregistered i sys w out :
  _sensors sys !! "molding" = None →
  ∃ w',
    simulate_one i ((sys, w), out)
    = (Raise (ValueError "No sensor registered for process: molding"), ((sys, w'), out))
    ∧ size (chocolates w') = S (size (chocolates w)).
Proof.
  intros Hnone. unfold simulate_one.
  set (w0 := {| lists := lists w; chocolates := chocolates w;
                random_source := random_source w; random_drawn := random_drawn w;
                clock_source := clock_source w; clock_read := S (clock_read w) |}).
  assert (datetime_now w = (Return (clock_source w (clock_read w)), w0)) as Hnow by done.
  rewrite (bind_Return _ _ _ _ _
             (in_system_Return _ _ out _ _ (in_world_Return _ sys _ _ _ Hnow))).
  set (molded := fresh (dom (chocolates w0))).
  set (c := {| __class__ := cls_MoldedChocolate "heart";
               _batch_id := "BATCH-M-" +:+ str (i + 1);
               _production_date := clock_source w (clock_read w);
               _defects := fresh (dom (lists w0));
               _quality_status := QualityStatus.PENDING |}).
  set (w1 := {| lists := <[_defects c := []]> (lists w0);
                chocolates := <[molded := c]> (chocolates w0);
                random_source := random_source w0; random_drawn := random_drawn w0;
                clock_source := clock_source w0; clock_read := clock_read w0 |}).
  assert (MoldedChocolate.__init__ ("BATCH-M-" +:+ str (i + 1))
            (clock_source w (clock_read w)) "heart" w0 = (Return molded, w1)) as Hinit
    by done.
  rewrite (bind_Return _ _ _ _ _
             (in_system_Return _ _ out _ _ (in_world_Return _ sys _ _ _ Hinit))).
  assert (inspect_chocolate molded "molding" (sys, w1)
          = (Raise (ValueError "No sensor registered for process: molding"), (sys, w1)))
    as Hraise.
  { unfold inspect_chocolate, mbind, Eff_bind, self. simpl. by rewrite Hnone. }
  rewrite (bind_Raise _ _ _ _ _ (in_system_Raise _ _ out _ _ Hraise)).
  exists w1. split; [done|]. simpl.
  apply map_size_insert_None, not_elem_of_dom, is_fresh.
Qed.

(** X19. Without a sensor for molding, [simulate_batch_production] of one
    chocolate or more stops at the first: it raises the [ValueError] of the
    inspection, having printed its first line only and having created the
    first chocolate; the registry and the ledger are as they were. *)
Theorem simulate_batch_production_unregistered quantity sys w out :
  _sensors sys !! "molding" = None →
  (0 < quantity)%Z →
  ∃ w',
    simulate_batch_production quantity ((sys, w), out)
    = (Raise (ValueError "No sensor registered for process: molding"),
       ((sys, w'),
        out ++ [LF +:+ "Simulating production of " +:+ str_int quantity
                +:+ " chocolates..."]))
    ∧ size (chocolates w') = S (size (chocolates w)).
Proof.
  intros Hnone Hpos. unfold simulate_batch_production.
  rewrite (bind_Return _ _ _ _ _ (print_run _ _)). cbn [fst snd]. cbv beta.
  destruct (Z.to_nat quantity) as [|n] eqn:Hn; [lia|].
  cbn [seq for_each].
  destruct (simulate_one_unregistered 0 sys w
              (out ++ [LF +:+ "Simulating production of " +:+ str_int quantity
                       +:+ " chocolates..."]) Hnone) as (w' & Hone & Hsize).
  exists w'. split; [|done].
  exact (bind_Raise _ _ _ _ _ Hone).
Qed.

Lemma simulate_batch_production_unregistered_witness :
  ∃ w',
    simulate_batch_production 2 ((__init__, empty_world), [])
    = (Raise (ValueError "No sensor registered for process: molding"),
       ((__init__, w'),
        [] ++ [LF +:+ "Simulating production of " +:+ str_int 2 +:+ " chocolates..."]))
    ∧ size (chocolates w') = S (size (chocolates empty_world)).
Proof.
  apply (simulate_batch_production_unregistered 2 __init__ empty_world []);
    [reflexivity|lia].
Defined.

(** X20. [simulate_batch_production] of a quantity that is not positive
    prints its first line and does nothing else, whatever sensors are
    registered: no chocolate is created and no inspection is made. *)
Theorem simulate_batch_production_nothing quantity (s : Session) :
  (quantity <= 0)%Z →
  simulate_batch_production quantity s
  = (Return tt,
     (s.1, s.2 ++ [LF +:+ "Simulating production of " +:+ str_int quantity
                   +:+ " chocolates..."])).
Proof.
  intros Hq. unfold simulate_batch_production.
  rewrite (bind_Return _ _ _ _ _ (print_run _ _)).
  by replace (Z.to_nat quantity) with 0 by lia.
Qed.

Lemma simulate_batch_production_nothing_witness :
  simulate_batch_production (-2) ((visual_system, empty_world), [])
  = (Return tt,
     ((visual_system, empty_world),
      [] ++ [LF +:+ "Simulating production of " +:+ str_int (-2) +:+ " chocolates..."])).
Proof.
  apply (simulate_batch_production_nothing (-2) ((visual_system, empty_world), [])).
  lia.
Defined.

(** ** The text of a chocolate *)

(** X6. [__str__] shows the batch id and the status the chocolate has at
    the time: it changes nothing, and right after [evaluate_quality] it
    shows the status that the evaluation returned, approved or rejected. *)
Theorem str_shows_status w self c D :
  chocolates w !! self = Some c →
  lists w !! _defects c = Some D →
  Chocolate.__str__ self w
  = (Return ("Chocolate Batch " +:+ _batch_id c +:+ " - Status: "
             +:+ QualityStatus.value (_quality_status c)), w)
  ∧ ∃ s w',
      evaluate_quality self w = (Return s, w')
      ∧ Chocolate.__str__ self w'
        = (Return ("Chocolate Batch " +:+ _batch_id c +:+ " - Status: "
                   +:+ QualityStatus.value s), w')
      ∧ (QualityStatus.value s = "approved" ∨ QualityStatus.value s = "rejected").
Proof.
  intros Hself HD. split.
  - unfold Chocolate.__str__.
    by rewrite (bind_Return _ _ _ _ _ (read_chocolate_Return _ _ _ Hself)).
  - destruct (evaluate_quality_returns w self c D Hself HD) as (s & Hrun & Hs).
    eexists s, _. split; [exact Hrun|]. split.
    + unfold Chocolate.__str__.
      set (w' := with_chocolates (<[self := set_status s c]> (chocolates w)) w).
      assert (chocolates w' !! self = Some (set_status s c)) as Hself'
        by (simpl; by rewrite lookup_insert_eq).
      by rewrite (bind_Return _ _ _ _ _ (read_chocolate_Return _ _ _ Hself')).
    + destruct Hs as [-> | ->]; [by left|by right].
Qed.

Lemma str_shows_status_witness :
  let w := world_with (cls_MoldedChocolate "heart") "M-1" [DefectType.BUBBLES] in
  let c := fresh_chocolate (cls_MoldedChocolate "heart") "M-1" in
  Chocolate.__str__ 0 w
  = (Return ("Chocolate Batch " +:+ _batch_id c +:+ " - Status: "
             +:+ QualityStatus.value (_quality_status c)), w)
  ∧ ∃ s w',
      evaluate_quality 0 w = (Return s, w')
      ∧ Chocolate.__str__ 0 w'
        = (Return ("Chocolate Batch " +:+ _batch_id c +:+ " - Status: "
                   +:+ QualityStatus.value s), w')
      ∧ (QualityStatus.value s = "approved" ∨ QualityStatus.value s = "rejected").
Proof.
  intros w c.
  apply (str_shows_status w 0 c [DefectType.BUBBLES]); reflexivity.
Defined.
